(** * mlbench master: the REST views of [master/api/views.py]

    A shallow embedding of the dashboard's API views (pods, metrics and
    model runs) over an explicit model of the entity store, followed by
    the properties of the run-orchestration and metrics-aggregation
    engine. *)

From Stdlib Require Import ZArith String Ascii List OrdersEx SpecFloat Sorted Permutation Lia.
From stdpp Require Import gmap strings list pretty.

Local Open Scope Z_scope.

(** ** Python: exceptions and results *)

(** The exceptions the views can let escape.  An exception that leaves a
    view is not an API response: the framework turns it into a server
    error. *)
Inductive exn :=
| DoesNotExist          (* Model.objects.get found no row *)
| KeyError (k : string) (* d[k] on a dict without k *)
| ValueError
| TypeError
| OverflowError
| AttributeError        (* attribute access on None *)
| IntegrityError        (* NOT NULL column given None *)
| ValidationError       (* a field refused the value *)
| NoSuchJobError        (* rq: Job.fetch on an unknown job id *)
| ConnectionError.      (* redis unreachable *)

Inductive result (A : Type) :=
| Ok (a : A)
| Raise (e : exn).
Arguments Ok {A} a.
Arguments Raise {A} e.

#[global] Instance result_ret : MRet result := λ A, Ok.
#[global] Instance result_bind : MBind result := λ A B k r,
  match r with
  | Ok a => k a
  | Raise e => Raise e
  end.

(** ** Python: [float] *)

(** A Python [float] is an IEEE 754 binary64 number. *)
Definition prec : Z := 53.
Definition emax : Z := 1024.

Definition float_of_Z (n : Z) : spec_float := binary_normalize prec emax n 0 false.
Definition float_mul : spec_float → spec_float → spec_float := SFmul prec emax.

(** The mantissa and exponent in canonical form. *)
Definition canonical (m : positive) (e : Z) : spec_float :=
  binary_normalize prec emax (Z.pos m) e false.

(** [cmp_scaled a p b q] compares [a * 2^p] with [b * 10^q]. *)
Definition cmp_scaled (a p b q : Z) : comparison :=
  (a * 2 ^ Z.max p 0 * 10 ^ Z.max (- q) 0 ?= b * 10 ^ Z.max q 0 * 2 ^ Z.max (- p) 0).

(** The position of the decimal point: the [k] with
    [10^(k-1) <= m * 2^e < 10^k]. *)
Fixpoint decpt_from (fuel : nat) (m e k : Z) : Z :=
  match fuel with
  | O => k
  | S fuel' =>
      match cmp_scaled m e 1 (k - 1) with
      | Lt => decpt_from fuel' m e (k - 1)
      | _ =>
          match cmp_scaled m e 1 k with
          | Lt => k
          | _ => decpt_from fuel' m e (k + 1)
          end
      end
  end.

(** Whether the decimal [d * 10^q] reads back as the float [m * 2^e]: it
    lies within half a gap of it, the ends included when [m] is even. *)
Definition reads_back (m e d q : Z) : bool :=
  let lo := if (m =? 2 ^ (prec - 1)) && (e >? 3 - emax - prec) then 4 * m - 1 else 4 * m - 2 in
  let hi := 4 * m + 2 in
  match cmp_scaled lo (e - 2) d q, cmp_scaled hi (e - 2) d q with
  | Lt, Gt => true
  | Eq, _ | _, Eq => Z.even m
  | _, _ => false
  end.

(** The best decimal of [n] digits for [m * 2^e], if one reads back; [k]
    is the position of the decimal point. *)
Definition digits_try (m e k n : Z) : option Z :=
  let q := k - n in
  let num := m * 2 ^ Z.max e 0 * 10 ^ Z.max (- q) 0 in
  let den := 2 ^ Z.max (- e) 0 * 10 ^ Z.max q 0 in
  let lo := num / den in
  let hi := if num mod den =? 0 then lo else lo + 1 in
  let first := match (2 * num ?= (lo + hi) * den) with
               | Lt => lo
               | Gt => hi
               | Eq => if Z.even lo then lo else hi
               end in
  let second := if first =? lo then hi else lo in
  if reads_back m e first q then Some first
  else if reads_back m e second q then Some second
  else None.

Fixpoint shortest_from (fuel : nat) (m e k n : Z) : Z * Z :=
  match fuel with
  | O => (m * 2 ^ Z.max e 0 * 10 ^ Z.max (n - k) 0 / (2 ^ Z.max (- e) 0 * 10 ^ Z.max (k - n) 0), n)
  | S fuel' =>
      match digits_try m e k n with
      | Some d => (d, n)
      | None => shortest_from fuel' m e k (n + 1)
      end
  end.

Fixpoint strip_zeros (fuel : nat) (d q : Z) : Z * Z :=
  match fuel with
  | O => (d, q)
  | S fuel' => if (d mod 10 =? 0) && (0 <? d) then strip_zeros fuel' (d / 10) (q + 1) else (d, q)
  end.

(** The shortest digit string that reads back as [m * 2^e], with the
    position of the decimal point. *)
Definition shortest_digits (m e : Z) : string * Z :=
  let k := decpt_from 700 m e 0 in
  let '(d, n) := shortest_from 17 m e k 1 in
  let '(d, q) := strip_zeros 20 d (k - n) in
  let s := pretty (Z.to_N d) in
  (s, q + Z.of_nat (String.length s)).

Fixpoint zeros (n : nat) : string :=
  match n with
  | O => ""
  | S n' => String "0" (zeros n')
  end.

(** [repr] of a finite non-zero magnitude. *)
Definition repr_digits (s : string) (decpt : Z) : string :=
  let n := Z.of_nat (String.length s) in
  if (decpt <=? -4) || (decpt >? 16) then
    let x := decpt - 1 in
    let mant := if n =? 1 then s
                else String.substring 0 1 s +:+ "." +:+ String.substring 1 (String.length s - 1) s in
    let xs := pretty (Z.to_N (Z.abs x)) in
    mant +:+ "e" +:+ (if x <? 0 then "-" else "+") +:+ (if Z.abs x <? 10 then "0" else "") +:+ xs
  else if decpt <=? 0 then
    "0." +:+ zeros (Z.to_nat (- decpt)) +:+ s
  else if n <=? decpt then
    s +:+ zeros (Z.to_nat (decpt - n)) +:+ ".0"
  else
    String.substring 0 (Z.to_nat decpt) s +:+ "." +:+
    String.substring (Z.to_nat decpt) (String.length s - Z.to_nat decpt) s.

(** [repr(x)], which is also [str(x)] and what [format] renders for an
    empty format specification. *)
Definition float_repr (x : spec_float) : string :=
  match x with
  | S754_nan => "nan"
  | S754_infinity s => if s then "-inf" else "inf"
  | S754_zero s => if s then "-0.0" else "0.0"
  | S754_finite s m e =>
      match canonical m e with
      | S754_finite _ m' e' =>
          let '(ds, k) := shortest_digits (Z.pos m') e' in
          (if s then "-" else "") +:+ repr_digits ds k
      | S754_infinity _ => if s then "-inf" else "inf"
      | _ => if s then "-0.0" else "0.0"
      end
  end.

(** ** Python: [sorted], [itertools.groupby], dict comprehensions *)

Section PySorted.
Context {A K : Type} (key : A → K) (lt : K → K → bool).

(** [x] comes from further left in the input than every element of [l]:
    it is placed before the first element that is not smaller, hence
    before its equals, which makes the sort stable. *)
Fixpoint insert_by (x : A) (l : list A) : list A :=
  match l with
  | [] => [x]
  | y :: l' => if lt (key y) (key x) then y :: insert_by x l' else x :: y :: l'
  end.

(** [sorted(l, key=key)]: the stable sort of [l], comparing keys with [<]. *)
Definition sorted_by (l : list A) : list A := foldr insert_by [] l.

(** [a] may stand before [b]: the key of [b] is not smaller. *)
Definition key_le (a b : A) : Prop := lt (key b) (key a) = false.
End PySorted.

(** [<] on [str]: lexicographic on the characters. *)
Definition str_lt (a b : string) : bool :=
  match String_as_OT.compare a b with
  | Lt => true
  | _ => false
  end.

Section PyGroupby.
Context {A : Type} (key : A → string).

(** [itertools.groupby]: [k] is the key of the group being collected and
    [grp] its elements so far, latest first. *)
Fixpoint groupby_from (k : string) (grp : list A) (l : list A) : list (string * list A) :=
  match l with
  | [] => [(k, rev grp)]
  | x :: l' =>
      if String.eqb (key x) k then groupby_from k (x :: grp) l'
      else (k, rev grp) :: groupby_from (key x) [x] l'
  end.

Definition groupby (l : list A) : list (string * list A) :=
  match l with
  | [] => []
  | x :: l' => groupby_from (key x) [x] l'
  end.

(** The elements of [l] filed under [k]. *)
Definition has_key (k : string) (x : A) : bool := String.eqb (key x) k.
End PyGroupby.

(** [{k: v for (k, v) in kvs}]: entries are stored left to right, a later
    one replaces an earlier one under the same key. *)
Definition dict_of {V : Type} (kvs : list (string * V)) : gmap string V :=
  foldl (λ d kv, <[kv.1 := kv.2]> d) ∅ kvs.

(** ** The entities of [api.models] *)

Module KubeMetric.
(** One stored sample.  [pod] and [model_run] are the two nullable
    foreign keys to the owner. *)
Record t := mk {
  name : string;
  date : Z;
  value : string;
  metadata : string;
  cumulative : bool;
  pod : option Z;
  model_run : option Z
}.
End KubeMetric.

Module KubePod.
(** A worker.  [current_run] is the foreign key to the run it works
    for; labels, phase and address are what the cluster reported. *)
Record t := mk {
  id : Z;
  name : string;
  labels : string;
  phase : string;
  ip : string;
  current_run : option Z
}.
End KubePod.

Inductive run_state := CREATED | STARTED | FINISHED | FAILED.

#[global] Instance run_state_eq_dec : EqDecision run_state.
Proof. solve_decision. Defined.

Module ModelRun.
Record t := mk {
  id : Z;
  name : string;
  state : run_state;
  num_workers : Z;
  cpu_limit : string;
  network_bandwidth_limit : Z;
  job_id : string;
  created_at : Z;
  finished_at : option Z
}.
End ModelRun.

Module MetricData.
(** Modelled from the spec: [api/serializers.py] is missing; the stored
    representation of a metric carries the sample's own fields
    (name, date, value, metadata, cumulative). *)
Record t := mk {
  name : string;
  date : Z;
  value : string;
  metadata : string;
  cumulative : bool
}.
End MetricData.

Definition KubeMetricsSerializer_data (e : KubeMetric.t) : MetricData.t :=
  MetricData.mk (KubeMetric.name e) (KubeMetric.date e) (KubeMetric.value e)
                (KubeMetric.metadata e) (KubeMetric.cumulative e).

(** ** [KubeMetricsView.__format_result] *)

(** The comprehension's condition
    [(since is None or e.date > since) and (until is None or e.date > until)]. *)
Definition in_window (since until : option Z) (e : KubeMetric.t) : bool :=
  match since with None => true | Some s => KubeMetric.date e >? s end
  && match until with None => true | Some u => KubeMetric.date e >? u end.

(** The value of one group: its entries by date, those outside the
    window dropped, serialized. *)
Definition format_entries (since until : option Z) (g : list KubeMetric.t)
  : list MetricData.t :=
  KubeMetricsSerializer_data <$>
    List.filter (in_window since until) (sorted_by KubeMetric.date Z.ltb g).

Definition format_group (since until : option Z) (g : string * list KubeMetric.t)
  : string * list MetricData.t :=
  (g.1, format_entries since until g.2).

Definition format_result (metrics : list KubeMetric.t) (since until : option Z)
  : gmap string (list MetricData.t) :=
  dict_of (format_group since until <$>
             groupby KubeMetric.name (sorted_by KubeMetric.name str_lt metrics)).

(** ** Request bodies and library code *)

(** The scalars a parsed JSON or form body holds. *)
Inductive pyval :=
| VNone
| VBool (b : bool)
| VInt (n : Z)
| VFloat (x : spec_float)
| VStr (s : string).

(** [d[k]] *)
Definition getitem (d : gmap string pyval) (k : string) : result pyval :=
  match d !! k with
  | Some v => Ok v
  | None => Raise (KeyError k)
  end.

(** Library code outside the repository, taken as given: the string
    parsers of Python and Django, and [api.utils.utils.secure_filename].
    Timestamps are points on the UTC time line, in microseconds. *)
Class Library := {
  (** [float(s)] on a string; [None] is [ValueError]. *)
  float_of_str : string → option spec_float;
  (** [int(s)] on a string; [None] is [ValueError]. *)
  int_of_str : string → option Z;
  (** [django.utils.dateparse.parse_datetime]: [None] for a string that is
      not well formatted, [ValueError] for one that is but names no date. *)
  parse_datetime : string → result (option Z);
  (** [pytz.utc.localize(datetime.strptime(s, "%Y-%m-%dT%H:%M:%S.%fZ"))];
      [None] is [ValueError]. *)
  strptime_utc : string → option Z;
  secure_filename : string → string
}.

Section Conversions.
Context {lib : Library}.

(** [float(v)] *)
Definition py_float (v : pyval) : result spec_float :=
  match v with
  | VFloat x => Ok x
  | VInt n =>
      match float_of_Z n with
      | S754_infinity _ => Raise OverflowError
      | x => Ok x
      end
  | VBool b => Ok (float_of_Z (if b then 1 else 0))
  | VStr s =>
      match float_of_str s with
      | Some x => Ok x
      | None => Raise ValueError
      end
  | VNone => Raise TypeError
  end.

(** [int(v)]: a float is truncated towards zero. *)
Definition py_int (v : pyval) : result Z :=
  match v with
  | VInt n => Ok n
  | VBool b => Ok (if b then 1 else 0)
  | VFloat (S754_zero _) => Ok 0
  | VFloat (S754_finite s m e) =>
      let a := if e <? 0 then Z.pos m / 2 ^ (- e) else Z.pos m * 2 ^ e in
      Ok (if s then - a else a)
  | VFloat (S754_infinity _) => Raise OverflowError
  | VFloat S754_nan => Raise ValueError
  | VStr s =>
      match int_of_str s with
      | Some n => Ok n
      | None => Raise ValueError
      end
  | VNone => Raise TypeError
  end.

(** [str(v)] *)
Definition py_str (v : pyval) : string :=
  match v with
  | VNone => "None"
  | VBool b => if b then "True" else "False"
  | VInt n => pretty n
  | VFloat x => float_repr x
  | VStr s => s
  end.

(** What a text column stores for [v]; a column is not nullable. *)
Definition to_char (v : pyval) : result string :=
  match v with
  | VNone => Raise IntegrityError
  | _ => Ok (py_str v)
  end.

(** What an integer column, or a primary key, stores for [v]. *)
Definition to_int (v : pyval) : result Z :=
  match v with
  | VNone => Raise IntegrityError
  | _ => py_int v
  end.

(** What a boolean column stores for [v]: [True] and [False] and what
    equals them ([1], [0], [1.0], [0.0]), and the strings the field
    reads as booleans. *)
Definition to_bool (v : pyval) : result bool :=
  match v with
  | VNone => Raise IntegrityError
  | VBool b => Ok b
  | VInt 0 => Ok false
  | VInt 1 => Ok true
  | VFloat (S754_zero _) => Ok false
  | VFloat (S754_finite s m e) =>
      match canonical m e with
      | S754_finite _ 4503599627370496 (-52) => if s then Raise ValidationError else Ok true
      | _ => Raise ValidationError
      end
  | VStr s =>
      if bool_decide (s ∈ ["t"; "True"; "1"]) then Ok true
      else if bool_decide (s ∈ ["f"; "False"; "0"]) then Ok false
      else Raise ValidationError
  | _ => Raise ValidationError
  end.

(** Saving a row has two steps.  First every field converts its value
    for its column, where a field may refuse the value and where [None]
    passes as NULL; then the row is inserted, where a NULL is refused,
    the columns not being nullable. *)
Definition prep_char (v : pyval) : option string :=
  match v with
  | VNone => None
  | _ => Some (py_str v)
  end.

Definition prep_int (v : pyval) : result (option Z) :=
  match v with
  | VNone => Ok None
  | _ => n ← py_int v; Ok (Some n)
  end.

Definition prep_bool (v : pyval) : result (option bool) :=
  match v with
  | VNone => Ok None
  | _ => b ← to_bool v; Ok (Some b)
  end.

Definition not_null {A : Type} (column : option A) : result A :=
  match column with
  | Some a => Ok a
  | None => Raise IntegrityError
  end.
End Conversions.

(** ** The entity store *)

(** The three tables, rows in insertion order, and the sequence of run
    primary keys. *)
Record Store := mkStore {
  pods : list KubePod.t;
  runs : list ModelRun.t;
  metrics : list KubeMetric.t;
  next_run_id : Z
}.

(** The job-execution backend (rq on redis) as it answers during one
    request. *)
Class Backend := {
  (** [Job.fetch(job_id, connection).meta]: raises [NoSuchJobError] for an
      unknown job and [ConnectionError] when redis cannot be reached. *)
  Job_fetch : string → result (gmap string pyval);
  (** Submitting the job of a run: the job id, or the error of the
      submission. *)
  enqueue : ModelRun.t → result string
}.

Section ORM.
Context {lib : Library}.

(** [KubePod.objects.filter(name=v).first()] *)
Definition KubePod_filter_name_first (st : Store) (v : pyval) : option KubePod.t :=
  match v with
  | VNone => None
  | _ => List.find (λ p, String.eqb (KubePod.name p) (py_str v)) (pods st)
  end.

(** [ModelRun.objects.get(pk=v)]: never [None], a missing row is the
    exception [DoesNotExist]. *)
Definition ModelRun_get (st : Store) (v : pyval) : result ModelRun.t :=
  match v with
  | VNone => Raise DoesNotExist
  | _ =>
      pk ← py_int v;
      match List.find (λ r, ModelRun.id r =? pk) (runs st) with
      | Some r => Ok r
      | None => Raise DoesNotExist
      end
  end.

(** [ModelRun.objects.filter(state=s)] *)
Definition ModelRun_filter_state (st : Store) (s : run_state) : list ModelRun.t :=
  List.filter (λ r, bool_decide (ModelRun.state r = s)) (runs st).

(** [pod.metrics.all()] *)
Definition pod_metrics (st : Store) (p : KubePod.t) : list KubeMetric.t :=
  List.filter (λ m, bool_decide (KubeMetric.pod m = Some (KubePod.id p))) (metrics st).

(** [run.metrics.all()] *)
Definition run_metrics (st : Store) (r : ModelRun.t) : list KubeMetric.t :=
  List.filter (λ m, bool_decide (KubeMetric.model_run m = Some (ModelRun.id r))) (metrics st).

(** [run.pods.all()] *)
Definition run_pods (st : Store) (r : ModelRun.t) : list KubePod.t :=
  List.filter (λ p, bool_decide (KubePod.current_run p = Some (ModelRun.id r))) (pods st).

(** [st] with one more metric. *)
Definition add_metric (st : Store) (m : KubeMetric.t) : Store :=
  mkStore (pods st) (runs st) (metrics st ++ [m]) (next_run_id st).

(** [KubeMetric(name=.., date=.., value=.., metadata=.., cumulative=..,
    pod=.., model_run=..)] followed by [metric.save()]: every field
    converts its value first, of which only the boolean may refuse one;
    then the row is inserted, a NULL being refused, and appended. *)
Definition KubeMetric_save (st : Store) (name : pyval) (date : option Z)
    (value metadata cumulative : pyval) (pod model_run : option Z)
  : result KubeMetric.t * Store :=
  match
    cumulative ← prep_bool cumulative;
    n ← not_null (prep_char name);
    t ← not_null date;
    v ← not_null (prep_char value);
    md ← not_null (prep_char metadata);
    c ← not_null cumulative;
    mret (KubeMetric.mk n t v md c pod model_run)
  with
  | Ok m => (Ok m, add_metric st m)
  | Raise e => (Raise e, st)
  end.

(** Modelled from the spec: the deletion policy of the foreign keys in
    [api/models.py] is missing; deleting a run removes the run, its pods,
    and the metrics owned by the run and by those pods. *)
Definition ModelRun_delete (st : Store) (r : ModelRun.t) : Store :=
  let gone := KubePod.id <$> run_pods st r in
  mkStore
    (List.filter (λ p, negb (bool_decide (KubePod.current_run p = Some (ModelRun.id r)))) (pods st))
    (List.filter (λ r', negb (ModelRun.id r' =? ModelRun.id r)) (runs st))
    (List.filter (λ m, negb (bool_decide (KubeMetric.model_run m = Some (ModelRun.id r)))
                      && negb (match KubeMetric.pod m with
                               | Some p => bool_decide (p ∈ gone)
                               | None => false
                               end))
                 (metrics st))
    (next_run_id st).
End ORM.

(** ** Starting a run *)

(** [ModelRun(name=.., num_workers=.., cpu_limit=..,
    network_bandwidth_limit=..)]: the object before it is saved, holding
    the values it was given. *)
Record NewRun := mkNewRun {
  new_name : pyval;
  new_num_workers : pyval;
  new_cpu_limit : string;
  new_network_bandwidth_limit : pyval
}.

Definition with_state (r : ModelRun.t) (s : run_state) (job : string) : ModelRun.t :=
  ModelRun.mk (ModelRun.id r) (ModelRun.name r) s (ModelRun.num_workers r)
    (ModelRun.cpu_limit r) (ModelRun.network_bandwidth_limit r) job
    (ModelRun.created_at r) (ModelRun.finished_at r).

Definition add_run (st : Store) (r : ModelRun.t) : Store :=
  mkStore (pods st) (runs st ++ [r]) (metrics st) (next_run_id st + 1).

Section Start.
Context {lib : Library} {be : Backend}.

(** Modelled from the spec: [ModelRun.start] in [api/models.py] is
    missing.  A run is constructed in state CREATED; starting it submits
    a job to the backend, receives a job id and sets the state to
    STARTED; if the submission fails the run is not left STARTED: it ends
    FAILED and the error is surfaced.  [now] is the time of the request,
    which the row records as its creation time.  The row is saved as
    every row is: the fields convert their values, then the insertion
    refuses a NULL. *)
Definition ModelRun_start (now : Z) (a : NewRun) (st : Store)
  : result ModelRun.t * Store :=
  match
    num_workers ← prep_int (new_num_workers a);
    network_bandwidth_limit ← prep_int (new_network_bandwidth_limit a);
    n ← not_null (prep_char (new_name a));
    w ← not_null num_workers;
    b ← not_null network_bandwidth_limit;
    mret (ModelRun.mk (next_run_id st) n CREATED w (new_cpu_limit a) b "" now None)
  with
  | Raise e => (Raise e, st)
  | Ok run =>
      match enqueue run with
      | Ok job =>
          let run' := with_state run STARTED job in
          (Ok run', add_run st run')
      | Raise e => (Raise e, add_run st (with_state run FAILED ""))
      end
  end.
End Start.

(** ** Responses *)

Inductive body :=
(** [{'status': .., 'message': ..}], with the request body under ['data']
    when the view echoes it *)
| Message (status message : string) (data : option (gmap string pyval))
(** a [KubeMetric] instance, handed over as it is *)
| MetricObject (m : KubeMetric.t)
(** [KubeMetricsSerializer(metric).data] *)
| MetricJson (m : MetricData.t)
(** Modelled from the spec: [ModelRunSerializer] is missing; a run is
    shown with its stored fields and the job metadata attached to it. *)
| RunJson (r : ModelRun.t) (job_metadata : option (gmap string pyval))
(** the grouped series *)
| Series (s : gmap string (list MetricData.t))
(** a zip archive: the files written, in order; a file is listed with
    the series whose JSON text ([json.dumps]) is its content *)
| Archive (files : list (string * gmap string (list MetricData.t))).

Record Response := mkResponse {
  data : body;
  status : Z;
  headers : list (string * string)
}.

Definition HTTP_200_OK : Z := 200.
Definition HTTP_201_CREATED : Z := 201.
Definition HTTP_204_NO_CONTENT : Z := 204.
Definition HTTP_400_BAD_REQUEST : Z := 400.
Definition HTTP_404_NOT_FOUND : Z := 404.
Definition HTTP_409_CONFLICT : Z := 409.

(** [Response(data, status=status)] *)
Definition respond (b : body) (s : Z) : Response := mkResponse b s [].

(** ** [KubeMetricsView] *)

(** What [retrieve] reads off the request: the query parameters [since]
    and [metric_type], and the format of the accepted renderer. *)
Record MetricsQuery := mkQuery {
  q_since : option string;
  q_metric_type : option string;
  q_format : string
}.

(** The body of [list]: for every pod name, and for every run name, the
    grouped series of that owner. *)
Record MetricsListing := mkListing {
  listed_pod_metrics : gmap string (gmap string (list MetricData.t));
  listed_run_metrics : gmap string (gmap string (list MetricData.t))
}.

Module KubeMetricsView.
Section Views.
Context {lib : Library}.

(** The files of the pods of a run: one per pod, named after it.  The
    series written is computed from [metrics], the metrics fetched for
    the response, and not from the pod's own, which are fetched into
    [pod_metrics] and overwritten at once. *)
Definition pod_files (st : Store) (metrics : list KubeMetric.t)
    (since until : option Z) (pods : list KubePod.t)
  : list (string * gmap string (list MetricData.t)) :=
  (λ pod,
     let pod_metrics := pod_metrics st pod in
     let pod_metrics := format_result metrics since until in
     (KubePod.name pod +:+ ".json", pod_metrics)) <$> pods.

(** The query parameter [since], parsed when it is given. *)
Definition parse_since (since : option string) : result (option Z) :=
  match since with
  | None => Ok None
  | Some s =>
      match strptime_utc s with
      | Some t => Ok (Some t)
      | None => Raise ValueError
      end
  end.

Definition retrieve (st : Store) (q : MetricsQuery) (pk : string) : result Response :=
  since ← parse_since (q_since q);
  let metric_type := default "pod" (q_metric_type q) in
  metrics ← (if String.eqb metric_type "pod" then
               match KubePod_filter_name_first st (VStr pk) with
               | Some pod => Ok (pod_metrics st pod)
               | None => Raise AttributeError
               end
             else
               run ← ModelRun_get st (VStr pk);
               Ok (run_metrics st run));
  let result := format_result metrics since None in
  if String.eqb (q_format q) "zip" then
    let result_json := ("result.json", result) in
    '(files, filename) ←
      (if String.eqb metric_type "run" then
         run ← ModelRun_get st (VStr pk);
         let pods := run_pods st run in
         let filename := secure_filename (ModelRun.name run) in
         let since := Some (ModelRun.created_at run) in
         let until := ModelRun.finished_at run in
         Ok (result_json :: pod_files st metrics since until pods, filename)
       else
         match KubePod_filter_name_first st (VStr pk) with
         | Some pod => Ok ([result_json], secure_filename (KubePod.name pod))
         | None => Raise AttributeError
         end);
    Ok (mkResponse (Archive files) HTTP_200_OK
          [("content-disposition", "attachment; filename=metrics_" +:+ filename +:+ ".zip")])
  else
    Ok (respond (Series result) HTTP_200_OK).

(** The body of the two storing branches of [create]: the fields are
    read off the request in the order of the constructor call, then the
    metric is saved. *)
Definition store_metric (st : Store) (d : gmap string pyval) (pod model_run : option Z)
  : result KubeMetric.t * Store :=
  match
    name ← getitem d "name";
    date ← (v ← getitem d "date";
            match v with
            | VStr s => parse_datetime s
            | _ => Raise TypeError
            end);
    value ← getitem d "value";
    metadata ← getitem d "metadata";
    cumulative ← getitem d "cumulative";
    mret (name, date, value, metadata, cumulative)
  with
  | Ok (name, date, value, metadata, cumulative) =>
      KubeMetric_save st name date value metadata cumulative pod model_run
  | Raise e => (Raise e, st)
  end.

(** The payload carries the fields of a sample, and they are stored as
    [n], [t], [v], [md] and [c]. *)
Definition metric_fields (d : gmap string pyval) (n : string) (t : Z) (v md : string)
    (c : bool) : Prop :=
  ∃ name date value metadata cumulative,
    d !! "name" = Some name ∧ d !! "date" = Some (VStr date) ∧
    d !! "value" = Some value ∧ d !! "metadata" = Some metadata ∧
    d !! "cumulative" = Some cumulative ∧
    to_char name = Ok n ∧ parse_datetime date = Ok (Some t) ∧
    to_char value = Ok v ∧ to_char metadata = Ok md ∧ to_bool cumulative = Ok c.

Definition create (st : Store) (d : gmap string pyval) : result Response * Store :=
  match d !! "pod_name" with
  | Some pod_name =>
      match KubePod_filter_name_first st pod_name with
      | None =>
          (Ok (respond (Message "Not Found" "Pod not found" None) HTTP_404_NOT_FOUND), st)
      | Some pod =>
          match store_metric st d (Some (KubePod.id pod)) None with
          | (Ok metric, st') => (Ok (respond (MetricObject metric) HTTP_201_CREATED), st')
          | (Raise e, st') => (Raise e, st')
          end
      end
  | None =>
      match d !! "run_id" with
      | Some run_id =>
          (* [get] returns a run or raises: the test [run is None] that
             guards the "Run not found" response never succeeds *)
          match ModelRun_get st run_id with
          | Raise e => (Raise e, st)
          | Ok run =>
              match store_metric st d None (Some (ModelRun.id run)) with
              | (Ok metric, st') =>
                  (Ok (respond (MetricJson (KubeMetricsSerializer_data metric))
                         HTTP_201_CREATED), st')
              | (Raise e, st') => (Raise e, st')
              end
          end
      | None =>
          (Ok (respond (Message "Bad Request" "Pod Name or run id have to be supplied" (Some d))
                 HTTP_400_BAD_REQUEST), st)
      end
  end.
(** The grouping [list] writes out for each pod and each run: by name,
    each group by date, nothing filtered. *)
Definition group_all (metrics : list KubeMetric.t) : gmap string (list MetricData.t) :=
  dict_of ((λ g, (g.1, KubeMetricsSerializer_data <$> sorted_by KubeMetric.date Z.ltb g.2))
             <$> groupby KubeMetric.name (sorted_by KubeMetric.name str_lt metrics)).

(** [list]: the body [{'pod_metrics': .., 'run_metrics': ..}] and the
    status. *)
Definition list (st : Store) : MetricsListing * Z :=
  let pod_metrics :=
    dict_of ((λ pod, (KubePod.name pod, group_all (pod_metrics st pod))) <$> pods st) in
  let run_metrics :=
    dict_of ((λ run, (ModelRun.name run, group_all (run_metrics st run))) <$> runs st) in
  (mkListing pod_metrics run_metrics, HTTP_200_OK).
End Views.
End KubeMetricsView.

(** ** [ModelRunView] *)

Module ModelRunView.
Section Views.
Context {lib : Library} {be : Backend}.

Definition retrieve (st : Store) (pk : string) : result Response :=
  run ← ModelRun_get st (VStr pk);
  job_meta ← Job_fetch (ModelRun.job_id run);
  Ok (respond (RunJson run (Some job_meta)) HTTP_200_OK).

(** ["{}m".format(float(num_cpus) * 1000)] *)
Definition cpu_limit_of (num_cpus : pyval) : result string :=
  x ← py_float num_cpus;
  Ok (float_repr (float_mul x (float_of_Z 1000)) +:+ "m").

(** The request carries the fields of a run: [x] cores, and a name, a
    number of workers and a bandwidth stored as [n], [w] and [b]. *)
Definition run_fields (d : gmap string pyval) (x : spec_float) (n : string) (w b : Z)
  : Prop :=
  ∃ num_cpus name num_workers max_bandwidth,
    d !! "num_cpus" = Some num_cpus ∧ d !! "name" = Some name ∧
    d !! "num_workers" = Some num_workers ∧ d !! "max_bandwidth" = Some max_bandwidth ∧
    py_float num_cpus = Ok x ∧ to_char name = Ok n ∧
    to_int num_workers = Ok w ∧ to_int max_bandwidth = Ok b.

(** The row of such a run before it is started. *)
Definition created_run (now : Z) (st : Store) (x : spec_float) (n : string) (w b : Z)
  : ModelRun.t :=
  ModelRun.mk (next_run_id st) n CREATED w
    (float_repr (float_mul x (float_of_Z 1000)) +:+ "m") b "" now None.

Definition create (now : Z) (st : Store) (d : gmap string pyval)
  : result Response * Store :=
  let active_runs := ModelRun_filter_state st STARTED in
  if Z.of_nat (length active_runs) >? 0 then
    (Ok (respond (Message "Conflict" "There is already an active run" None)
           HTTP_409_CONFLICT), st)
  else
    match
      cpu ← (v ← getitem d "num_cpus"; cpu_limit_of v);
      name ← getitem d "name";
      num_workers ← getitem d "num_workers";
      max_bandwidth ← getitem d "max_bandwidth";
      mret (mkNewRun name num_workers cpu max_bandwidth)
    with
    | Raise e => (Raise e, st)
    | Ok run =>
        match ModelRun_start now run st with
        | (Ok run', st') => (Ok (respond (RunJson run' None) HTTP_201_CREATED), st')
        | (Raise e, st') => (Raise e, st')
        end
    end.

Definition destroy (st : Store) (pk : string) : result Response * Store :=
  match ModelRun_get st (VStr pk) with
  | Raise e => (Raise e, st)
  | Ok run =>
      (* [run is not None] holds of every run [get] returns *)
      (Ok (respond (Message "Deleted" "The run was deleted" None) HTTP_204_NO_CONTENT),
       ModelRun_delete st run)
  end.
End Views.
End ModelRunView.

(** ** Sample environments

    Concrete libraries, backends and stores on which the views are
    evaluated below. *)

(** A plain decimal numeral, with an optional minus sign. *)
Fixpoint digits_value (acc : Z) (s : string) : option Z :=
  match s with
  | EmptyString => Some acc
  | String c s' =>
      let n := Z.of_N (N_of_ascii c) - 48 in
      if (0 <=? n) && (n <=? 9) then digits_value (10 * acc + n) s' else None
  end.

Definition numeral (s : string) : option Z :=
  match s with
  | EmptyString => None
  | String "-" EmptyString => None
  | String "-" s' => Z.opp <$> digits_value 0 s'
  | _ => digits_value 0 s
  end.

(** The timestamp of the docstring of [AsyncMetricsPost.post], and the
    same instant as [str(datetime.datetime.now())] writes it on a worker
    whose clock runs on UTC. *)
Definition sample_date : string := "2018-08-14T09:21:44.331823Z".
Definition worker_date : string := "2018-08-14 09:21:44.331823".
Definition sample_time : Z := 1534238504331823.

(** [float] of a plain numeral: the sign of a zero is kept. *)
Definition float_of_numeral (s : string) : option spec_float :=
  n ← numeral s;
  Some (if n =? 0 then S754_zero (String.prefix "-" s) else float_of_Z n).

(** A library that answers as the real one on the strings used below:
    plain decimal numerals, [sample_date] and [worker_date], the server
    reading a date without zone as UTC, and names made of letters, digits
    and dashes. *)
Definition sample_library : Library := {|
  float_of_str := float_of_numeral;
  int_of_str := numeral;
  parse_datetime s :=
    Ok (if String.eqb s sample_date || String.eqb s worker_date then Some sample_time
        else None);
  strptime_utc s := if String.eqb s sample_date then Some sample_time else None;
  secure_filename s := s
|}.

(** A backend that accepts every job and knows the metadata of every job. *)
Definition accepting_backend : Backend := {|
  Job_fetch _ := Ok ∅;
  enqueue _ := Ok "job-1"
|}.

(** A backend that has no record of any job. *)
Definition forgetful_backend : Backend := {|
  Job_fetch _ := Raise NoSuchJobError;
  enqueue _ := Ok "job-1"
|}.

Definition empty_store : Store := mkStore [] [] [] 1.

(** Run 1, started at time 0 and not finished, with one worker. *)
Definition sample_run : ModelRun.t :=
  ModelRun.mk 1 "r1" STARTED 1 "2000.0m" 1000 "job-1" 0 None.
Definition sample_pod : KubePod.t :=
  KubePod.mk 1 "worker-0" "" "Running" "10.0.0.2" (Some 1).

(** The worker reported ["cpu"] at time 5, the run ["loss"] at time 6. *)
Definition pod_sample : KubeMetric.t := KubeMetric.mk "cpu" 5 "0.9" "" false (Some 1) None.
Definition run_sample : KubeMetric.t := KubeMetric.mk "loss" 6 "0.5" "" false None (Some 1).

Definition sample_store : Store :=
  mkStore [sample_pod] [sample_run] [pod_sample; run_sample] 2.

(** Four samples of ["loss"], at times 1 to 4. *)
Definition loss_at (t : Z) : KubeMetric.t := KubeMetric.mk "loss" t "0.5" "" false None (Some 1).
Definition four_samples : list KubeMetric.t := [loss_at 1; loss_at 2; loss_at 3; loss_at 4].

(** A metric payload without its owner fields. *)
Definition both_owners (d : gmap string pyval) : gmap string pyval :=
  <["pod_name" := VStr "worker-0"]> (<["run_id" := VInt 1]> d).

Definition sample_payload : gmap string pyval :=
  <["name" := VStr "loss"]> (<["date" := VStr sample_date]> (<["value" := VStr "0.5"]>
  (<["metadata" := VStr ""]> (<["cumulative" := VBool false]> ∅)))).

(** The request of the spec's end-to-end scenario, with [cpus] cores. *)
Definition run_request (cpus : pyval) : gmap string pyval :=
  <["name" := VStr "r1"]> (<["num_cpus" := cpus]> (<["num_workers" := VInt 1]>
  (<["max_bandwidth" := VInt 1000]> ∅))).

Definition two_cores : spec_float := float_of_Z 2.

(** Samples of two names, out of date order. *)
Definition sample_at (n : string) (t : Z) : KubeMetric.t :=
  KubeMetric.mk n t "0.5" "" false None (Some 1).
Definition mixed_samples : list KubeMetric.t :=
  [sample_at "loss" 3; sample_at "accuracy" 2; sample_at "loss" 1; sample_at "Loss" 2;
   sample_at "accuracy" 1].

(** The sample store once run 1 has finished, at time 10. *)
Definition finished_run : ModelRun.t :=
  ModelRun.mk 1 "r1" FINISHED 1 "2000.0m" 1000 "job-1" 0 (Some 10).
Definition finished_store : Store :=
  mkStore [sample_pod] [finished_run] [pod_sample; run_sample] 2.

(** The request for the archive of a run. *)
Definition archive_of_run : MetricsQuery := mkQuery None (Some "run") "zip".

(** ** Notions used in the properties *)

(** The query asks for the series of a pod: [metric_type] is absent or is
    "pod". *)
Definition asks_for_pod (q : MetricsQuery) : Prop :=
  q_metric_type q = None ∨ q_metric_type q = Some "pod".

(** A metric has exactly one owner, a pod or a run of the store. *)
Definition one_owner (st : Store) (m : KubeMetric.t) : Prop :=
  (∃ p, p ∈ pods st ∧ KubeMetric.pod m = Some (KubePod.id p) ∧ KubeMetric.model_run m = None) ∨
  (∃ r, r ∈ runs st ∧ KubeMetric.model_run m = Some (ModelRun.id r) ∧ KubeMetric.pod m = None).

(** The fields of a sample, in the order in which [create] reads them. *)
Definition metric_keys : list string := ["name"; "date"; "value"; "metadata"; "cumulative"].

(** At most one run is STARTED. *)
Definition at_most_one_started (st : Store) : Prop :=
  (length (ModelRun_filter_state st STARTED) ≤ 1)%nat.

(** The fields of a create-run request, in the order in which
    [ModelRunView.create] reads them. *)
Definition run_keys : list string := ["num_cpus"; "name"; "num_workers"; "max_bandwidth"].

(** Whether [cpu_limit_of] gives whole cores [n], as an integer and as a
    float, the string of [1000 * n] with the fraction ".0" and the letter m. *)
Definition whole_cores_ok {lib : Library} (n : Z) : bool :=
  match ModelRunView.cpu_limit_of (VInt n), ModelRunView.cpu_limit_of (VFloat (float_of_Z n)) with
  | Ok s, Ok s' =>
      String.eqb s (pretty (1000 * n) +:+ ".0m") && String.eqb s' (pretty (1000 * n) +:+ ".0m")
  | _, _ => false
  end.

(** The sample payload, sent for run 1 as a worker sends it. *)
Definition run_payload : gmap string pyval := <["run_id" := VStr "1"]> sample_payload.

(** The metric that payload stores. *)
Definition run_payload_metric : KubeMetric.t :=
  KubeMetric.mk "loss" sample_time "0.5" "" false None (Some 1).

(** The run that [run_request] starts on the empty store at time 7. *)
Definition started_run : ModelRun.t :=
  ModelRun.mk 1 "r1" STARTED 1 "2000.0m" 1000 "job-1" 7 None.

(** * The workers' side: [refimpls/pytorch/utils/log.py] *)

(** [s * n] on a string: [n] copies, none for [n <= 0]. *)
Fixpoint str_repeat (s : string) (n : nat) : string :=
  match n with
  | O => ""
  | S n' => s +:+ str_repeat s n'
  end.

Definition str_mul (s : string) (n : Z) : string := str_repeat s (Z.to_nat n).

(** [len(s)]: the number of characters.  A string is held as its UTF-8
    bytes, of which those of the form 10xxxxxx continue a character and
    every other one starts a character. *)
Definition starts_character (c : ascii) : bool :=
  negb (N.land (N_of_ascii c) 192 =? 128)%N.

Fixpoint characters (s : string) : nat :=
  match s with
  | EmptyString => 0
  | String c s' => (if starts_character c then 1 else 0) + characters s'
  end.

Definition len (s : string) : Z := Z.of_nat (characters s).

Definition _warp (string symbol : String.string) (length : Z) : String.string :=
  let one_side_length := (length - len string - 2) / 2 in
  if one_side_length >? 0 then
    (((str_mul symbol one_side_length +:+ " ") +:+ string) +:+ " ")
      +:+ str_mul symbol one_side_length
  else string.

(** ["{:.6f}".format(x)]: the exact value of [x] rounded to six decimals,
    half to even. *)
Definition round_micro (m : positive) (e : Z) : Z :=
  if 0 <=? e then Z.pos m * 2 ^ e * 1000000
  else
    let num := Z.pos m * 1000000 in
    let den := 2 ^ (- e) in
    let q := num / den in
    match 2 * (num mod den) ?= den with
    | Lt => q
    | Gt => q + 1
    | Eq => if Z.even q then q else q + 1
    end.

Definition format_6f (x : spec_float) : string :=
  match x with
  | S754_nan => "nan"
  | S754_infinity s => if s then "-inf" else "inf"
  | S754_zero s => (if s then "-" else "") +:+ "0.000000"
  | S754_finite s m e =>
      let n := round_micro m e in
      let frac := pretty (Z.to_N (n mod 1000000)) in
      (if s then "-" else "") +:+ pretty (Z.to_N (n / 1000000)) +:+ "."
        +:+ zeros (6 - String.length frac) +:+ frac
  end.

(** What the Kubernetes client finds when [init] runs. *)
Inductive cluster :=
| OutOfCluster                    (* [load_incluster_config] raises *)
| ListingFails                    (* [list_namespaced_pod] raises *)
| MasterPods (ips : list string). (* the pods found, by their [pod_ip] *)

(** The exceptions that leave [init] and [post]. *)
Inductive post_error :=
| UnboundLocalError  (* [api_response] read though the listing raised *)
| AssertionError     (* not exactly one master pod *)
| NoEndpoint.        (* [self.endpoint] read before [init] has set it *)

(** A request handed to curl: the endpoint and the payload. *)
Definition Post : Type := string * gmap string pyval.

Module AsyncMetricsPost.
Record t := mk {
  _initialized : bool;
  _incluster : bool;
  endpoint : option string
}.

(** [AsyncMetricsPost()] *)
Definition new : t := mk false true None.

(** [init]: the object afterwards, and the exception if one left. *)
Definition init (env : cluster) (self : t) : t * option post_error :=
  match env with
  | OutOfCluster => (mk (_initialized self) false (endpoint self), None)
  | ListingFails => (self, Some UnboundLocalError)
  | MasterPods [ip] =>
      (mk true (_incluster self) (Some ("http://" +:+ ip +:+ "/api/metrics/")), None)
  | MasterPods _ => (self, Some AssertionError)
  end.

(** The curl process started for [payload]; starting it is taken to
    succeed. *)
Definition emit (self : t) (payload : gmap string pyval)
  : t * list Post * option post_error :=
  match endpoint self with
  | Some url => (self, [(url, payload)], None)
  | None => (self, [], Some NoEndpoint)
  end.

(** [post]: the object afterwards, the requests sent, and the exception
    if one left. *)
Definition post (env : cluster) (self : t) (payload : gmap string pyval)
  : t * list Post * option post_error :=
  if negb (_initialized self) then
    match init env self with
    | (self', Some e) => (self', [], Some e)
    | (self', None) =>
        if negb (_incluster self') then (self', [], None)
        else emit self' payload
    end
  else emit self payload.
End AsyncMetricsPost.

Definition _post_metrics (env : cluster) (async_post : AsyncMetricsPost.t)
    (payload : gmap string pyval) (rank : Z) (dont_post_to_dashboard : bool)
  : AsyncMetricsPost.t * list Post * option post_error :=
  if (rank =? 0) && negb dont_post_to_dashboard && AsyncMetricsPost._incluster async_post
  then AsyncMetricsPost.post env async_post payload
  else (async_post, [], None).

(** The options a worker runs with, as far as [post_metrics] reads them. *)
Record Options := mkOptions {
  run_id : pyval;
  rank : Z;
  dont_post_to_dashboard : bool;
  current_epoch : pyval;
  records : list (gmap string pyval)
}.

(** The dict [post_metrics] builds; [now] is [str(datetime.datetime.now())]. *)
Definition metric_data (options : Options) (metric_name : string) (value : spec_float)
    (now : string) : gmap string pyval :=
  <["run_id" := run_id options]> (<["rank" := VInt (rank options)]>
  (<["name" := VStr metric_name]> (<["value" := VStr (format_6f value)]>
  (<["date" := VStr now]> (<["epoch" := VStr (py_str (current_epoch options))]>
  (<["cumulative" := VStr "False"]> (<["metadata" := VStr ""]> ∅))))))).

(** [post_metrics]: the poster and the options afterwards, the requests
    sent, and the exception if one left; the record is appended once the
    posting has returned. *)
Definition post_metrics (env : cluster) (async_post : AsyncMetricsPost.t)
    (options : Options) (metric_name : string) (value : spec_float) (now : string)
  : AsyncMetricsPost.t * Options * list Post * option post_error :=
  let data := metric_data options metric_name value now in
  match _post_metrics env async_post data (rank options) (dont_post_to_dashboard options) with
  | (async_post', sent, Some e) => (async_post', options, sent, Some e)
  | (async_post', sent, None) =>
      (async_post',
       mkOptions (run_id options) (rank options) (dont_post_to_dashboard options)
         (current_epoch options) (records options ++ [data]),
       sent, None)
  end.

(** The options of the worker of rank 0 of run 1, at epoch 3. *)
Definition sample_options : Options := mkOptions (VStr "1") 0 false (VInt 3) [].
Definition half : spec_float := S754_finite false 4503599627370496 (-53).

(** [options] with [data] appended to its records. *)
Definition with_record (options : Options) (data : gmap string pyval) : Options :=
  mkOptions (run_id options) (rank options) (dont_post_to_dashboard options)
    (current_epoch options) (records options ++ [data]).

(** The poster once it has found itself outside a cluster, and once it
    has found the master at [ip]. *)
Definition poster_off : AsyncMetricsPost.t := AsyncMetricsPost.mk false false None.
Definition poster_on (ip : string) : AsyncMetricsPost.t :=
  AsyncMetricsPost.mk true true (Some ("http://" +:+ ip +:+ "/api/metrics/")).

(** * The pages: [master/main/views.py] *)

Module MainViews.
Section Views.
Context {lib : Library} {be : Backend}.

(** [metrics.order_by('name').values('name').distinct()]: the names,
    each once, in order. *)
Definition metric_names (metrics : list KubeMetric.t) : list string :=
  (groupby KubeMetric.name (sorted_by KubeMetric.name str_lt metrics)).*1.

(** [run]: the run, its job metadata and the names of its metrics, as
    handed to the template, and the store afterwards.  [now] is
    [timezone.now()], read once for each of the two metrics; a minute is
    60 000 000 microseconds. *)
Definition run (now now2 : Z) (st : Store) (run_id : string)
  : result (ModelRun.t * gmap string pyval * list string) * Store :=
  match ModelRun_get st (VStr run_id) with
  | Raise e => (Raise e, st)
  | Ok run =>
      match Job_fetch (ModelRun.job_id run) with
      | Raise e => (Raise e, st)
      | Ok job_metadata =>
          let metric :=
            KubeMetric.mk "test" now "0.0" "" false None (Some (ModelRun.id run)) in
          let metric2 :=
            KubeMetric.mk "test" (now2 + 60000000) "1.0" "" false None
              (Some (ModelRun.id run)) in
          let st := add_metric st metric in
          let st := add_metric st metric2 in
          let metrics := metric_names (run_metrics st run) in
          (Ok (run, job_metadata, metrics), st)
      end
  end.
End Views.
End MainViews.

(** A store in which two pods bear the name worker-0 and two runs the
    name r1, each with a metric of its own, beside a pod and a run of
    other names. *)
Definition first_twin_pod : KubePod.t := KubePod.mk 1 "worker-0" "" "Running" "10.0.0.2" (Some 1).
Definition last_twin_pod : KubePod.t := KubePod.mk 2 "worker-0" "" "Running" "10.0.0.3" (Some 2).
Definition other_pod : KubePod.t := KubePod.mk 3 "worker-1" "" "Running" "10.0.0.4" (Some 3).
Definition first_twin_run : ModelRun.t :=
  ModelRun.mk 1 "r1" FINISHED 1 "2000.0m" 1000 "job-1" 0 (Some 10).
Definition last_twin_run : ModelRun.t :=
  ModelRun.mk 2 "r1" FINISHED 1 "2000.0m" 1000 "job-2" 20 (Some 30).
Definition other_run : ModelRun.t :=
  ModelRun.mk 3 "r3" STARTED 1 "2000.0m" 1000 "job-3" 40 None.
Definition twin_store : Store :=
  mkStore [first_twin_pod; last_twin_pod; other_pod]
    [first_twin_run; last_twin_run; other_run]
    [KubeMetric.mk "cpu" 5 "0.1" "" false (Some 1) None;
     KubeMetric.mk "cpu" 25 "0.2" "" false (Some 2) None;
     KubeMetric.mk "cpu" 45 "0.3" "" false (Some 3) None;
     KubeMetric.mk "loss" 6 "0.9" "" false None (Some 1);
     KubeMetric.mk "loss" 26 "0.8" "" false None (Some 2);
     KubeMetric.mk "loss" 46 "0.7" "" false None (Some 3)]
    4.
(** * Properties *)

(** ** Sorting *)

Section SortedFacts.
Context {A K : Type} (key : A → K) (lt : K → K → bool).

Lemma insert_by_Permutation x l : insert_by key lt x l ≡ₚ x :: l.
Proof.
  induction l as [|y l IH]; simpl; [done|].
  destruct (lt (key y) (key x)); [|done].
  rewrite IH. apply perm_swap.
Qed.

Lemma sorted_by_Permutation l : sorted_by key lt l ≡ₚ l.
Proof.
  induction l as [|x l IH]; simpl; [done|].
  by rewrite insert_by_Permutation, IH.
Qed.

Hypothesis lt_asym : ∀ a b, lt a b = true → lt b a = false.
Hypothesis lt_cotrans : ∀ a b c, lt a c = true → lt a b = true ∨ lt b c = true.

Lemma insert_by_sorted x l :
  StronglySorted (key_le key lt) l → StronglySorted (key_le key lt) (insert_by key lt x l).
Proof.
  induction 1 as [|y l Hl IH Hy]; simpl.
  - repeat constructor.
  - destruct (lt (key y) (key x)) eqn:Hyx.
    + constructor; [done|].
      rewrite insert_by_Permutation. constructor; [|done].
      by apply lt_asym.
    + constructor; [by constructor|].
      constructor; [done|].
      eapply Forall_impl; [exact Hy|].
      intros z Hz. unfold key_le in *.
      destruct (lt (key z) (key x)) eqn:Hzx; [|done].
      destruct (lt_cotrans _ (key y) _ Hzx); congruence.
Qed.

Lemma sorted_by_sorted l : StronglySorted (key_le key lt) (sorted_by key lt l).
Proof.
  induction l; simpl; [constructor|]. by apply insert_by_sorted.
Qed.
End SortedFacts.

(** A stable sort keeps the elements of one key in their input order. *)
Lemma filter_insert_by {A} (key : A → string) (k : string) x l :
  List.filter (has_key key k) (insert_by key str_lt x l) =
  List.filter (has_key key k) (x :: l).
Proof.
  unfold has_key. induction l as [|y l IH]; [done|].
  cbn [insert_by]. destruct (str_lt (key y) (key x)) eqn:Hyx; [|done].
  cbn [List.filter] in *. rewrite IH.
  destruct (String.eqb_spec (key x) k) as [Hx|Hx]; [|done].
  destruct (String.eqb_spec (key y) k) as [Hy|Hy]; [|done].
  exfalso. unfold str_lt in Hyx. rewrite Hx, <- Hy in Hyx.
  destruct (String_as_OT.compare_spec (key y) (key y)) as [_|H|H]; try done;
    by apply (StrictOrder_Irreflexive (R:=String_as_OT.lt)) in H.
Qed.

Lemma filter_sorted_by_name {A} (key : A → string) (k : string) l :
  List.filter (has_key key k) (sorted_by key str_lt l) =
  List.filter (has_key key k) l.
Proof.
  induction l as [|x l IH]; [done|].
  cbn [sorted_by foldr]. rewrite filter_insert_by.
  cbn [List.filter]. fold (sorted_by key str_lt l). by rewrite IH.
Qed.

(** ** The order on names *)

Lemma str_lt_spec a b : str_lt a b = true ↔ String_as_OT.lt a b.
Proof.
  unfold str_lt, String_as_OT.lt.
  destruct (String_as_OT.compare a b); split; congruence.
Qed.

Lemma str_lt_irrefl a : str_lt a a = false.
Proof.
  destruct (str_lt a a) eqn:H; [|done].
  apply str_lt_spec in H. by apply (StrictOrder_Irreflexive (R:=String_as_OT.lt)) in H.
Qed.

Lemma str_lt_trans a b c : str_lt a b = true → str_lt b c = true → str_lt a c = true.
Proof.
  rewrite !str_lt_spec. apply (StrictOrder_Transitive (R:=String_as_OT.lt)).
Qed.

Lemma str_lt_asym a b : str_lt a b = true → str_lt b a = false.
Proof.
  intros Hab. destruct (str_lt b a) eqn:Hba; [|done].
  pose proof (str_lt_trans _ _ _ Hab Hba) as H. by rewrite str_lt_irrefl in H.
Qed.

Lemma str_lt_total a b : str_lt a b = false → str_lt b a = false → a = b.
Proof.
  unfold str_lt. intros Hab Hba.
  destruct (String_as_OT.compare_spec a b) as [H|H|H]; [done|done|].
  destruct (String_as_OT.compare_spec b a) as [H'|H'|H']; [done|done|].
  exfalso. apply (StrictOrder_Irreflexive (R:=String_as_OT.lt) a).
  by etransitivity.
Qed.

Lemma str_lt_cotrans a b c : str_lt a c = true → str_lt a b = true ∨ str_lt b c = true.
Proof.
  intros Hac. destruct (str_lt a b) eqn:Hab; [by left|right].
  destruct (str_lt b a) eqn:Hba.
  - by eapply str_lt_trans.
  - by rewrite <- (str_lt_total _ _ Hab Hba).
Qed.

Lemma Z_ltb_asym (a b : Z) : (a <? b) = true → (b <? a) = false.
Proof. lia. Qed.

Lemma Z_ltb_cotrans (a b c : Z) : (a <? c) = true → (a <? b) = true ∨ (b <? c) = true.
Proof. destruct (Z.ltb_spec a b); [by left|right; lia]. Qed.

(** ** Grouping *)

Section GroupbyFacts.
Context {A : Type} (key : A → string).

(** [groupby] read from the right: the element in front joins the first
    group when it has that group's key and opens a group otherwise. *)
Lemma groupby_from_groupby k grp l :
  groupby_from key k grp l =
  match groupby key l with
  | [] => [(k, rev grp)]
  | (k', g) :: rest =>
      if String.eqb k' k then (k, rev grp ++ g) :: rest
      else (k, rev grp) :: (k', g) :: rest
  end.
Proof.
  revert k grp. induction l as [|x l IH]; intros k grp; [done|].
  cbn [groupby_from groupby].
  rewrite (IH (key x) [x]). destruct (String.eqb_spec (key x) k) as [<-|Hk].
  - rewrite (IH (key x) (x :: grp)). simpl rev.
    destruct (groupby key l) as [|[k' g] rest].
    + by rewrite String.eqb_refl.
    + destruct (String.eqb k' (key x));
        by rewrite String.eqb_refl, <- ?app_assoc.
  - apply String.eqb_neq in Hk.
    destruct (groupby key l) as [|[k' g] rest].
    + by rewrite Hk.
    + destruct (String.eqb k' (key x)); by rewrite Hk.
Qed.

Lemma groupby_cons x l :
  groupby key (x :: l) =
  match groupby key l with
  | [] => [(key x, [x])]
  | (k', g) :: rest =>
      if String.eqb k' (key x) then (key x, x :: g) :: rest
      else (key x, [x]) :: (k', g) :: rest
  end.
Proof. cbn [groupby]. by rewrite groupby_from_groupby. Qed.

Lemma groupby_head k g rest l :
  groupby key l = (k, g) :: rest → ∃ y l', l = y :: l' ∧ k = key y.
Proof.
  destruct l as [|y l']; [done|]. rewrite groupby_cons. intros H.
  exists y, l'. split; [done|].
  destruct (groupby key l') as [|[k' g'] rest']; [congruence|].
  destruct (String.eqb k' (key y)); congruence.
Qed.

Lemma filter_has_key_nil k l :
  (∀ y, y ∈ l → key y ≠ k) → List.filter (has_key key k) l = [].
Proof.
  induction l as [|y l IH]; intros H; [done|]. cbn [List.filter]. unfold has_key at 1.
  destruct (String.eqb_spec (key y) k) as [Hy|_].
  - exfalso. apply (H y); [left|done].
  - apply IH. intros z Hz. apply H. by right.
Qed.

(** On a list sorted by key, the groups are the non-empty key classes,
    one group per key. *)
Lemma groupby_sorted l :
  StronglySorted (key_le key str_lt) l →
  NoDup (groupby key l).*1 ∧
  (∀ k g, (k, g) ∈ groupby key l ↔ g ≠ [] ∧ g = List.filter (has_key key k) l).
Proof.
  induction 1 as [|x l Hl IH Hx].
  { split; [constructor|]. intros k g. split; [by intros ?%elem_of_nil|]. by intros [? ->]. }
  destruct IH as (Hnd & Hgrp).
  rewrite groupby_cons.
  destruct (groupby key l) as [|[k' g'] rest] eqn:HG.
  - assert (Hnone : ∀ k, List.filter (has_key key k) l = []).
    { intros k. destruct (List.filter (has_key key k) l) as [|y f] eqn:Hf; [done|].
      exfalso. eapply (elem_of_nil (k, y :: f)), Hgrp. by rewrite Hf. }
    split; [repeat constructor; set_solver|].
    intros k g. rewrite list_elem_of_singleton. cbn [List.filter]. unfold has_key at 1.
    rewrite Hnone. split.
    + intros [= -> ->]. by rewrite String.eqb_refl.
    + intros [Hne ->]. by destruct (String.eqb_spec (key x) k) as [->|].
  - assert (Hin' : (k', g') ∈ (k', g') :: rest) by left.
    apply Hgrp in Hin' as [Hg'ne Hg'].
    destruct (String.eqb_spec k' (key x)) as [Hk'|Hk'].
    + subst k'. split; [done|].
      intros k g. cbn [List.filter]. unfold has_key at 1.
      rewrite elem_of_cons. split.
      * intros [[= -> ->]|Hin].
        -- by rewrite String.eqb_refl, Hg'.
        -- assert (k ≠ key x).
           { intros ->. apply NoDup_cons in Hnd as [Hnd _]. apply Hnd.
             apply list_elem_of_fmap. by exists (key x, g). }
           destruct (String.eqb_spec (key x) k); [done|].
           apply Hgrp. by right.
      * intros [Hne ->]. destruct (String.eqb_spec (key x) k) as [Hk|Hk].
        -- left. by rewrite <- Hk, Hg'.
        -- right. assert (Hin : (k, List.filter (has_key key k) l) ∈ (key x, g') :: rest)
             by by apply Hgrp.
           apply elem_of_cons in Hin as [[= Hk' _]|]; done.
    + assert (Hnox : List.filter (has_key key (key x)) l = []).
      { apply filter_has_key_nil. intros y Hy Hyx.
        destruct (groupby_head _ _ _ _ HG) as (y0 & l' & -> & ->).
        apply Hk'. apply Forall_cons in Hx as [Hxy0 _].
        apply StronglySorted_inv in Hl as [_ Hy0].
        unfold key_le in *. apply str_lt_total; [done|].
        apply elem_of_cons in Hy as [->|Hy]; [by rewrite Hyx in Hk'|].
        rewrite Forall_forall in Hy0. rewrite <- Hyx. by apply Hy0. }
      split.
      { change (NoDup (key x :: ((k', g') :: rest).*1)). constructor; [|done].
        intros ([k g] & Hk & Hin)%list_elem_of_fmap. cbn in Hk. subst k.
        apply Hgrp in Hin as [Hne ->]. by rewrite Hnox in Hne. }
      intros k g. cbn [List.filter]. unfold has_key at 1.
      rewrite elem_of_cons. split.
      * intros [[= -> ->]|Hin].
        -- by rewrite String.eqb_refl, Hnox.
        -- apply Hgrp in Hin as [Hne ->].
           destruct (String.eqb_spec (key x) k) as [Hk|]; [|done].
           by rewrite <- Hk, Hnox in Hne.
      * intros [Hne ->]. destruct (String.eqb_spec (key x) k) as [Hk|Hk].
        -- left. by rewrite <- Hk, Hnox.
        -- right. by apply Hgrp.
Qed.
End GroupbyFacts.

(** ** Dict comprehensions *)

Lemma foldl_insert_lookup {V} (kvs : list (string * V)) (d : gmap string V) k :
  NoDup kvs.*1 →
  foldl (λ d kv, <[kv.1 := kv.2]> d) d kvs !! k =
  match (list_to_map kvs : gmap string V) !! k with
  | Some v => Some v
  | None => d !! k
  end.
Proof.
  revert d. induction kvs as [|[k0 v0] kvs IH]; intros d Hnd; [done|].
  apply NoDup_cons in Hnd as [Hk0 Hnd].
  cbn [foldl list_to_map foldr fst snd]. rewrite IH by done.
  destruct (decide (k0 = k)) as [->|Hne].
  - rewrite lookup_insert_eq, (not_elem_of_list_to_map_1 _ _ Hk0).
    by rewrite lookup_insert_eq.
  - rewrite (lookup_insert_ne (list_to_map kvs)) by done.
    destruct (list_to_map kvs !! k); [done|]. by rewrite lookup_insert_ne.
Qed.

Lemma dict_of_lookup {V} (kvs : list (string * V)) k v :
  NoDup kvs.*1 → dict_of kvs !! k = Some v ↔ (k, v) ∈ kvs.
Proof.
  intros Hnd. unfold dict_of. rewrite foldl_insert_lookup, lookup_empty by done.
  rewrite elem_of_list_to_map by done.
  by destruct (list_to_map kvs !! k).
Qed.

(** ** [__format_result], name by name *)

(** The dict holds one key per name that occurs among the metrics; its
    value is built from the metrics of that name, taken in input order. *)
Lemma format_result_lookup metrics since until n :
  format_result metrics since until !! n =
  match List.filter (has_key KubeMetric.name n) metrics with
  | [] => None
  | g => Some (format_entries since until g)
  end.
Proof.
  unfold format_result.
  set (L := sorted_by KubeMetric.name str_lt metrics).
  assert (HL : StronglySorted (key_le KubeMetric.name str_lt) L)
    by (apply sorted_by_sorted; [apply str_lt_asym|apply str_lt_cotrans]).
  destruct (groupby_sorted KubeMetric.name L HL) as [Hnd Hgrp].
  assert (Hnd' : NoDup (format_group since until <$> groupby KubeMetric.name L).*1).
  { by rewrite <- list_fmap_compose. }
  rewrite <- (filter_sorted_by_name KubeMetric.name n metrics). fold L.
  destruct (List.filter _ L) as [|y f] eqn:Hf.
  - destruct (dict_of _ !! n) as [v|] eqn:Hv; [|done].
    apply dict_of_lookup in Hv; [|done].
    apply list_elem_of_fmap in Hv as ([k g] & [= -> ->] & Hin).
    apply Hgrp in Hin as [Hne ->]. by rewrite Hf in Hne.
  - apply dict_of_lookup; [done|].
    apply list_elem_of_fmap. exists (n, y :: f). split; [done|].
    apply Hgrp. by split.
Qed.

(** ** The entries of one name *)

Lemma in_window_spec since until e :
  in_window since until e = true ↔
  (∀ s, since = Some s → s < KubeMetric.date e) ∧
  (∀ u, until = Some u → u < KubeMetric.date e).
Proof.
  unfold in_window. rewrite andb_true_iff.
  destruct since as [s|], until as [u|]; rewrite ?Z.gtb_ltb, ?Z.ltb_lt;
    split; try (intros [H1 H2]; split; [intros ? [= <-]|intros ? [= <-]]; done);
    try (intros [H1 H2]; split; intros; done); intros [H1 H2]; split; auto.
Qed.

Lemma filter_sorted {A} (R : A → A → Prop) (f : A → bool) l :
  StronglySorted R l → StronglySorted R (List.filter f l).
Proof.
  induction 1 as [|x l Hl IH Hx]; cbn [List.filter]; [constructor|].
  destruct (f x); [|done]. constructor; [done|].
  rewrite Forall_forall in *. intros y Hy%list_elem_of_In%filter_In.
  apply Hx, list_elem_of_In, Hy.
Qed.

Lemma fmap_sorted {A B} (R : A → A → Prop) (R' : B → B → Prop) (f : A → B) l :
  (∀ a b, R a b → R' (f a) (f b)) →
  StronglySorted R l → StronglySorted R' (f <$> l).
Proof.
  intros HR. induction 1 as [|x l Hl IH Hx]; cbn; constructor; [done|].
  apply Forall_fmap. eapply Forall_impl; [exact Hx|]. intros y. apply HR.
Qed.

Lemma filter_Permutation {A} (f : A → bool) (l l' : list A) :
  l ≡ₚ l' → List.filter f l ≡ₚ List.filter f l'.
Proof.
  induction 1 as [|x l l' _ IH|x y l|l l' l'' _ IH1 _ IH2]; cbn [List.filter].
  - done.
  - destruct (f x); by rewrite IH.
  - destruct (f x), (f y); try done. apply perm_swap.
  - by etransitivity.
Qed.

Lemma filter_filter_andb {A} (f g : A → bool) l :
  List.filter g (List.filter f l) = List.filter (λ x, f x && g x) l.
Proof.
  induction l as [|x l IH]; [done|]. cbn [List.filter].
  destruct (f x); cbn [List.filter andb]; [|done]. destruct (g x); by rewrite IH.
Qed.

(** The entries under a name are in date order. *)
Lemma format_entries_sorted since until g :
  StronglySorted (λ a b, MetricData.date a ≤ MetricData.date b)
    (format_entries since until g).
Proof.
  unfold format_entries.
  apply (fmap_sorted (key_le KubeMetric.date Z.ltb)).
  { unfold key_le. intros a b Hab. cbn. lia. }
  apply filter_sorted, sorted_by_sorted; [apply Z_ltb_asym|apply Z_ltb_cotrans].
Qed.

(** They are the entries of the group that pass the condition. *)
Lemma format_entries_Permutation since until g :
  format_entries since until g ≡ₚ
  KubeMetricsSerializer_data <$> List.filter (in_window since until) g.
Proof.
  unfold format_entries. apply fmap_Permutation, filter_Permutation, sorted_by_Permutation.
Qed.

(** A name is a key of the result exactly when a metric bears it. *)
Lemma format_result_keys metrics since until n :
  is_Some (format_result metrics since until !! n) ↔
  ∃ m, m ∈ metrics ∧ KubeMetric.name m = n.
Proof.
  rewrite format_result_lookup.
  destruct (List.filter _ metrics) as [|y f] eqn:Hf.
  - split; [by intros [? ?]|]. intros (m & Hm & Hn). exfalso.
    assert (In m (List.filter (has_key KubeMetric.name n) metrics)) as Hin.
    { apply filter_In. split; [by apply list_elem_of_In|].
      unfold has_key. by apply String.eqb_eq. }
    by rewrite Hf in Hin.
  - split; [|by eexists]. intros _.
    assert (In y (List.filter (has_key KubeMetric.name n) metrics)) as Hin
      by (rewrite Hf; by left).
    apply filter_In in Hin as [Hin Hk]. exists y. split; [by apply list_elem_of_In|].
    by apply String.eqb_eq.
Qed.

(** The list under a name: in date order, of that name only, and made of
    the metrics of that name that pass the condition. *)
Lemma format_result_entries metrics since until n l :
  format_result metrics since until !! n = Some l →
  StronglySorted (λ a b, MetricData.date a ≤ MetricData.date b) l ∧
  Forall (λ e, MetricData.name e = n) l ∧
  l ≡ₚ KubeMetricsSerializer_data <$>
         List.filter (λ m, has_key KubeMetric.name n m && in_window since until m) metrics.
Proof.
  rewrite format_result_lookup.
  destruct (List.filter _ metrics) as [|y f] eqn:Hf; [done|].
  intros [= <-]. rewrite <- Hf. split; [apply format_entries_sorted|]. split.
  - rewrite format_entries_Permutation, filter_filter_andb.
    apply Forall_fmap, Forall_forall.
    intros m [_ Hm]%list_elem_of_In%filter_In. cbn.
    apply andb_true_iff in Hm as [Hm _]. by apply String.eqb_eq.
  - by rewrite format_entries_Permutation, filter_filter_andb.
Qed.

(** C5: the grouping-and-filtering operation partitions the metrics by
    exact, case-sensitive name: the result has a key for a name exactly
    when some input metric bears it, the list under a name holds entries
    of that name only, namely the input metrics of that name that pass the
    filter, and every list is in non-decreasing order of date, whatever the
    order of the input. *)
Theorem format_result_groups_by_name_sorted_by_date metrics since until :
  (∀ n, is_Some (format_result metrics since until !! n) ↔
        ∃ m, m ∈ metrics ∧ KubeMetric.name m = n) ∧
  (∀ n l, format_result metrics since until !! n = Some l →
     StronglySorted (λ a b, MetricData.date a ≤ MetricData.date b) l ∧
     Forall (λ e, MetricData.name e = n) l ∧
     l ≡ₚ KubeMetricsSerializer_data <$>
            List.filter (λ m, has_key KubeMetric.name n m && in_window since until m) metrics).
Proof.
  split; [apply format_result_keys|apply format_result_entries].
Qed.

Lemma format_result_groups_by_name_sorted_by_date_witness :
  let loss := [KubeMetricsSerializer_data (sample_at "loss" 1);
               KubeMetricsSerializer_data (sample_at "loss" 3)] in
  StronglySorted (λ a b, MetricData.date a ≤ MetricData.date b) loss ∧
  Forall (λ e, MetricData.name e = "loss") loss ∧
  loss ≡ₚ KubeMetricsSerializer_data <$>
            List.filter (λ m, has_key KubeMetric.name "loss" m && in_window None None m)
              mixed_samples.
Proof.
  apply (proj2 (format_result_groups_by_name_sorted_by_date mixed_samples None None) "loss").
  vm_compute. reflexivity.
Defined.

(** The window as the code applies it: an entry is kept when its date is
    after [since] and after [until], for each bound that is given. *)
Lemma format_result_window metrics since until n l e :
  format_result metrics since until !! n = Some l →
  e ∈ l ↔ ∃ m, m ∈ metrics ∧ KubeMetric.name m = n ∧ e = KubeMetricsSerializer_data m ∧
               (∀ s, since = Some s → s < KubeMetric.date m) ∧
               (∀ u, until = Some u → u < KubeMetric.date m).
Proof.
  intros Hl.
  destruct (format_result_entries _ _ _ _ _ Hl) as (_ & _ & Hperm).
  rewrite Hperm, list_elem_of_fmap.
  split.
  - intros (m & -> & [Hm Hc]%list_elem_of_In%filter_In).
    apply andb_true_iff in Hc as [Hn Hw]. exists m.
    apply String.eqb_eq in Hn. apply in_window_spec in Hw as [??].
    by rewrite list_elem_of_In.
  - intros (m & Hm & Hn & -> & Hs & Hu). exists m. split; [done|].
    apply list_elem_of_In, filter_In. split; [by apply list_elem_of_In|].
    apply andb_true_iff. split; [by apply String.eqb_eq|]. by apply in_window_spec.
Qed.

(** With no upper bound the entries kept are those after [since]. *)
Lemma format_result_since metrics since n l e :
  format_result metrics since None !! n = Some l →
  e ∈ l ↔ ∃ m, m ∈ metrics ∧ KubeMetric.name m = n ∧ e = KubeMetricsSerializer_data m ∧
               (∀ s, since = Some s → s < KubeMetric.date m).
Proof.
  intros Hl. rewrite (format_result_window _ _ _ _ _ _ Hl).
  split.
  - intros (m & ? & ? & ? & ? & ?). by exists m.
  - intros (m & ? & ? & ? & ?). exists m. by repeat split.
Qed.

(** C2, at samples of times 1 to 4: with [since = 2] the entries kept are
    those of times 3 and 4; with [until = 2] the entries kept are again
    those of times 3 and 4, the ones after the upper bound, and the
    entries of times 1 and 2, which lie in the window, are dropped. *)
Theorem format_result_until_keeps_later_entries :
  format_result four_samples (Some 2) None !! "loss" =
    Some [KubeMetricsSerializer_data (loss_at 3); KubeMetricsSerializer_data (loss_at 4)] ∧
  format_result four_samples None (Some 2) !! "loss" =
    Some [KubeMetricsSerializer_data (loss_at 3); KubeMetricsSerializer_data (loss_at 4)].
Proof. split; vm_compute; reflexivity. Qed.

(** ** Ingesting a metric *)

Section Ingest.
Context {lib : Library}.

(** A value that a column takes is one that its field converts and that
    the insertion does not refuse. *)
Lemma prep_char_Some v s : to_char v = Ok s → prep_char v = Some s.
Proof. destruct v; cbn; congruence. Qed.

Lemma prep_int_Some v n : to_int v = Ok n → prep_int v = Ok (Some n).
Proof. destruct v; try done; unfold to_int, prep_int; by intros ->. Qed.

Lemma prep_bool_Some v b : to_bool v = Ok b → prep_bool v = Ok (Some b).
Proof. destruct v; try done; unfold prep_bool; by intros ->. Qed.

Lemma store_metric_ok st d n t v md c pod model_run :
  KubeMetricsView.metric_fields d n t v md c →
  KubeMetricsView.store_metric st d pod model_run =
  (Ok (KubeMetric.mk n t v md c pod model_run),
   add_metric st (KubeMetric.mk n t v md c pod model_run)).
Proof.
  intros (name & date & value & metadata & cumulative &
          Hn & Hd & Hv & Hm & Hc & Hn' & Hd' & Hv' & Hm' & Hc').
  unfold KubeMetricsView.store_metric, getitem, KubeMetric_save.
  rewrite Hn, Hd, Hv, Hm, Hc. cbn. rewrite Hd'. cbn.
  by rewrite (prep_bool_Some _ _ Hc'), (prep_char_Some _ _ Hn'),
       (prep_char_Some _ _ Hv'), (prep_char_Some _ _ Hm').
Qed.

(** Every field is converted before the row is inserted: a value that
    the boolean field refuses is reported even where another field is
    [None], and a [None] is reported by the insertion. *)
Example save_converts_before_it_inserts st :
  KubeMetric_save st VNone (Some 0) (VStr "0.5") (VStr "") (VStr "maybe") None (Some 1) =
    (Raise ValidationError, st) ∧
  KubeMetric_save st VNone (Some 0) (VStr "0.5") (VStr "") (VStr "False") None (Some 1) =
    (Raise IntegrityError, st) ∧
  KubeMetric_save st (VStr "loss") (Some 0) (VStr "0.5") (VStr "") VNone None (Some 1) =
    (Raise IntegrityError, st) ∧
  KubeMetric_save st (VStr "loss") None (VStr "0.5") (VStr "") (VStr "False") None (Some 1) =
    (Raise IntegrityError, st).
Proof. repeat split; reflexivity. Qed.

(** A metric is stored by appending a row, or not at all. *)
Lemma store_metric_raise st d pod model_run e st' :
  KubeMetricsView.store_metric st d pod model_run = (Raise e, st') → st' = st.
Proof.
  unfold KubeMetricsView.store_metric, KubeMetric_save.
  repeat (match goal with
          | |- context [match ?x with _ => _ end] => destruct x eqn:?
          end; cbn in *; try congruence).
Qed.

(** C10: a payload that carries both [pod_name] and [run_id], and the
    fields of a sample, is handled by the pod branch: when a pod of that
    name exists the answer is 201 and the store after the request is the
    store before it with one row more at the end of the metrics, the
    sample with that pod as its only owner; no run is looked up, and the
    outcome is that of the same payload without [run_id]. *)
Theorem create_with_both_owners_stores_for_pod st d pod_name run_id pod n t v md c :
  d !! "pod_name" = Some pod_name →
  d !! "run_id" = Some run_id →
  KubePod_filter_name_first st pod_name = Some pod →
  KubeMetricsView.metric_fields d n t v md c →
  let metric := KubeMetric.mk n t v md c (Some (KubePod.id pod)) None in
  KubeMetricsView.create st d =
    (Ok (respond (MetricObject metric) HTTP_201_CREATED),
     mkStore (pods st) (runs st) (metrics st ++ [metric]) (next_run_id st)) ∧
  KubeMetricsView.create st (delete "run_id" d) = KubeMetricsView.create st d.
Proof.
  intros Hp Hr Hpod Hf metric.
  change (mkStore (pods st) (runs st) (metrics st ++ [metric]) (next_run_id st))
    with (add_metric st metric).
  assert (Hcreate : ∀ d', d' !! "pod_name" = Some pod_name →
            KubeMetricsView.metric_fields d' n t v md c →
            KubeMetricsView.create st d' =
            (Ok (respond (MetricObject metric) HTTP_201_CREATED), add_metric st metric)).
  { intros d' Hp' Hf'. unfold KubeMetricsView.create.
    by rewrite Hp', Hpod, (store_metric_ok _ _ _ _ _ _ _ _ _ Hf'). }
  split; [by apply Hcreate|].
  rewrite (Hcreate d) by done. apply Hcreate.
  - by rewrite lookup_delete_ne.
  - destruct Hf as (name & date & value & metadata & cumulative & ? & ? & ? & ? & ? & ?).
    exists name, date, value, metadata, cumulative.
    by rewrite !lookup_delete_ne.
Qed.

(** C4, amended: a payload in which neither [pod_name] nor [run_id] is
    present is refused with 400 Bad Request, whatever else it carries, and
    nothing is stored. *)
Theorem create_without_owner_is_bad_request st d :
  d !! "pod_name" = None →
  d !! "run_id" = None →
  KubeMetricsView.create st d =
    (Ok (respond (Message "Bad Request" "Pod Name or run id have to be supplied" (Some d))
           HTTP_400_BAD_REQUEST), st).
Proof. intros Hp Hr. unfold KubeMetricsView.create. by rewrite Hp, Hr. Qed.

(** A payload that names a pod that does not exist is answered with
    404, whatever else it carries, and nothing is stored. *)
Lemma create_unknown_pod st d pod_name :
  d !! "pod_name" = Some pod_name →
  KubePod_filter_name_first st pod_name = None →
  KubeMetricsView.create st d =
    (Ok (respond (Message "Not Found" "Pod not found" None) HTTP_404_NOT_FOUND), st).
Proof. intros Hp Hpod. unfold KubeMetricsView.create. by rewrite Hp, Hpod. Qed.

Lemma ModelRun_get_pk st v pk :
  to_int v = Ok pk →
  ModelRun_get st v =
  match List.find (λ r, ModelRun.id r =? pk) (runs st) with
  | Some r => Ok r
  | None => Raise DoesNotExist
  end.
Proof.
  intros Hpk. unfold ModelRun_get.
  destruct v; try done; unfold to_int in Hpk; by rewrite Hpk.
Qed.

Lemma ModelRun_get_missing st v pk :
  to_int v = Ok pk →
  (∀ r, r ∈ runs st → ModelRun.id r ≠ pk) →
  ModelRun_get st v = Raise DoesNotExist.
Proof.
  intros Hpk Hnone. rewrite (ModelRun_get_pk _ _ _ Hpk).
  destruct (List.find _ (runs st)) as [r|] eqn:Hfind; [|done].
  apply find_some in Hfind as [Hin Hid%Z.eqb_eq].
  by apply list_elem_of_In, Hnone in Hin.
Qed.

(** A payload that names a run, and no pod, and whose run does not
    exist: the lookup raises, and nothing is stored. *)
Lemma create_unknown_run st d run_id pk :
  d !! "pod_name" = None →
  d !! "run_id" = Some run_id →
  to_int run_id = Ok pk →
  (∀ r, r ∈ runs st → ModelRun.id r ≠ pk) →
  KubeMetricsView.create st d = (Raise DoesNotExist, st).
Proof.
  intros Hp Hr Hpk Hnone. unfold KubeMetricsView.create. rewrite Hp, Hr.
  by rewrite (ModelRun_get_missing _ _ _ Hpk Hnone).
Qed.
End Ingest.

Lemma create_without_owner_is_bad_request_witness :
  KubeMetricsView.create (lib := sample_library) sample_store sample_payload =
    (Ok (respond (Message "Bad Request" "Pod Name or run id have to be supplied"
                    (Some sample_payload)) HTTP_400_BAD_REQUEST), sample_store).
Proof.
  apply (create_without_owner_is_bad_request (lib := sample_library));
    vm_compute; reflexivity.
Defined.

(** C4, as stated, fails where both owner fields are present: the sample
    payload with [pod_name = "worker-0"] and [run_id = 1] is answered with
    201 and the metric is stored, owned by the pod. *)
Lemma create_with_both_owners_is_stored :
  let metric := KubeMetric.mk "loss" sample_time "0.5" "" false (Some 1) None in
  KubeMetricsView.create (lib := sample_library) sample_store (both_owners sample_payload) =
    (Ok (respond (MetricObject metric) HTTP_201_CREATED), add_metric sample_store metric).
Proof. vm_compute. reflexivity. Qed.

Lemma create_with_both_owners_stores_for_pod_witness :
  let metric :=
    KubeMetric.mk "loss" sample_time "0.5" "" false (Some (KubePod.id sample_pod)) None in
  KubeMetricsView.create (lib := sample_library) sample_store (both_owners sample_payload) =
    (Ok (respond (MetricObject metric) HTTP_201_CREATED),
     mkStore [sample_pod] [sample_run] [pod_sample; run_sample; metric] 2) ∧
  KubeMetricsView.create (lib := sample_library) sample_store
    (delete "run_id" (both_owners sample_payload)) =
  KubeMetricsView.create (lib := sample_library) sample_store (both_owners sample_payload).
Proof.
  assert (Hp : both_owners sample_payload !! "pod_name" = Some (VStr "worker-0"))
    by (vm_compute; reflexivity).
  assert (Hr : both_owners sample_payload !! "run_id" = Some (VInt 1))
    by (vm_compute; reflexivity).
  assert (Hpod : KubePod_filter_name_first sample_store (VStr "worker-0") = Some sample_pod)
    by (vm_compute; reflexivity).
  assert (Hf : KubeMetricsView.metric_fields (lib := sample_library)
                 (both_owners sample_payload) "loss" sample_time "0.5" "" false).
  { exists (VStr "loss"), sample_date, (VStr "0.5"), (VStr ""), (VBool false).
    repeat split; vm_compute; reflexivity. }
  exact (create_with_both_owners_stores_for_pod (lib := sample_library)
           sample_store (both_owners sample_payload) (VStr "worker-0") (VInt 1) sample_pod
           "loss" sample_time "0.5" "" false Hp Hr Hpod Hf).
Defined.

(** C8, at a payload that names run 7 and no pod, on a store whose only
    run is run 1: the view does not answer 404; the lookup of the run
    raises [DoesNotExist], which leaves the view.  Nothing is stored. *)
Theorem create_for_unknown_run_raises :
  KubeMetricsView.create (lib := sample_library) sample_store
    (<["run_id" := VInt 7]> sample_payload) = (Raise DoesNotExist, sample_store).
Proof. vm_compute. reflexivity. Qed.

(** ** Runs *)

Section Runs.
Context {lib : Library} {be : Backend}.

Lemma filter_state_nil st s :
  (∀ r, r ∈ runs st → ModelRun.state r ≠ s) → ModelRun_filter_state st s = [].
Proof.
  unfold ModelRun_filter_state. induction (runs st) as [|r l IH]; intros Hno; [done|].
  cbn [List.filter]. rewrite bool_decide_eq_false_2 by (apply Hno; left).
  apply IH. intros r' Hr'. apply Hno. by right.
Qed.

Lemma filter_state_some st s r :
  r ∈ runs st → ModelRun.state r = s →
  (Z.of_nat (length (ModelRun_filter_state st s)) >? 0) = true.
Proof.
  intros Hin Hs. unfold ModelRun_filter_state.
  set (l := List.filter _ (runs st)).
  assert (In r l) as Hr.
  { apply filter_In. split; [by apply list_elem_of_In|]. by apply bool_decide_eq_true_2. }
  destruct l; [done|]. cbn [length]. apply Z.gtb_lt. lia.
Qed.

(** While a run is STARTED every request is answered with 409, and the
    store is left as it was. *)
Lemma create_conflict now st d r :
  r ∈ runs st → ModelRun.state r = STARTED →
  ModelRunView.create now st d =
    (Ok (respond (Message "Conflict" "There is already an active run" None)
           HTTP_409_CONFLICT), st).
Proof.
  intros Hin Hs. unfold ModelRunView.create.
  by rewrite (filter_state_some _ _ _ Hin Hs).
Qed.

Lemma ModelRun_start_ok now a st n w b job :
  to_char (new_name a) = Ok n →
  to_int (new_num_workers a) = Ok w →
  to_int (new_network_bandwidth_limit a) = Ok b →
  enqueue (ModelRun.mk (next_run_id st) n CREATED w (new_cpu_limit a) b "" now None) = Ok job →
  let run := with_state
               (ModelRun.mk (next_run_id st) n CREATED w (new_cpu_limit a) b "" now None)
               STARTED job in
  ModelRun_start now a st = (Ok run, add_run st run).
Proof.
  intros Hn Hw Hb Hjob run. unfold ModelRun_start.
  rewrite (prep_int_Some _ _ Hw), (prep_int_Some _ _ Hb), (prep_char_Some _ _ Hn).
  unfold mbind, result_bind, mret, result_ret, not_null. by rewrite Hjob.
Qed.

(** With no run STARTED, a request that carries the fields of a run, and
    whose job the backend accepts, appends the run, STARTED. *)
Lemma create_started now st d x n w b job :
  (∀ r, r ∈ runs st → ModelRun.state r ≠ STARTED) →
  ModelRunView.run_fields d x n w b →
  enqueue (ModelRunView.created_run now st x n w b) = Ok job →
  let run := with_state (ModelRunView.created_run now st x n w b) STARTED job in
  ModelRunView.create now st d =
    (Ok (respond (RunJson run None) HTTP_201_CREATED), add_run st run).
Proof.
  intros Hno (num_cpus & name & num_workers & max_bandwidth &
              Hc & Hn & Hw & Hb & Hx & Hn' & Hw' & Hb') Hjob run.
  unfold ModelRunView.create. rewrite (filter_state_nil _ _ Hno). cbn [length Z.of_nat Z.gtb Z.compare].
  unfold getitem, ModelRunView.cpu_limit_of. rewrite Hc, Hn, Hw, Hb.
  unfold mbind, result_bind, mret, result_ret. rewrite Hx.
  by rewrite (ModelRun_start_ok now
                (mkNewRun name num_workers
                   (float_repr (float_mul x (float_of_Z 1000)) +:+ "m") max_bandwidth)
                st n w b job Hn' Hw' Hb' Hjob).
Qed.

(** C1: if some run is STARTED, create answers 409 Conflict and leaves
    the store as it was, whatever the request; if no run is STARTED, a
    request that carries the fields of a run, and whose job the backend
    accepts, is answered with 201 and the new run, and the store is the
    old one with that run appended, in state STARTED and with the job id
    received. *)
Theorem create_conflict_or_start now st d :
  ((∃ r, r ∈ runs st ∧ ModelRun.state r = STARTED) →
   ModelRunView.create now st d =
     (Ok (respond (Message "Conflict" "There is already an active run" None)
            HTTP_409_CONFLICT), st)) ∧
  ((∀ r, r ∈ runs st → ModelRun.state r ≠ STARTED) →
   ∀ x n w b job,
     ModelRunView.run_fields d x n w b →
     enqueue (ModelRunView.created_run now st x n w b) = Ok job →
     ∃ run,
       ModelRunView.create now st d =
         (Ok (respond (RunJson run None) HTTP_201_CREATED),
          mkStore (pods st) (runs st ++ [run]) (metrics st) (next_run_id st + 1)) ∧
       ModelRun.state run = STARTED ∧ ModelRun.job_id run = job ∧
       ModelRun.name run = n ∧ ModelRun.num_workers run = w ∧
       ModelRun.network_bandwidth_limit run = b).
Proof.
  split.
  - intros (r & Hin & Hs). by eapply create_conflict.
  - intros Hno x n w b job Hf Hjob. eexists. split; [by apply create_started|done].
Qed.

(** C6, amended: the stored [cpu_limit] is the product of the core count
    and 1000, as a float, in the decimal form Python gives a float, and
    the letter m: for 2.0 cores, or 2 cores, the string "2000.0m". *)
Theorem create_stores_cpu_limit now st d x n w b job :
  (∀ r, r ∈ runs st → ModelRun.state r ≠ STARTED) →
  ModelRunView.run_fields d x n w b →
  enqueue (ModelRunView.created_run now st x n w b) = Ok job →
  ∃ run,
    runs (ModelRunView.create now st d).2 = runs st ++ [run] ∧
    ModelRun.cpu_limit run = float_repr (float_mul x (float_of_Z 1000)) +:+ "m" ∧
    (x = two_cores → ModelRun.cpu_limit run = "2000.0m").
Proof.
  intros Hno Hf Hjob. eexists. rewrite (create_started _ _ _ _ _ _ _ _ Hno Hf Hjob).
  split; [done|]. split; [done|]. by intros ->.
Qed.

(** C7, amended: on an existing run, the detail request succeeds with
    the job's metadata when the backend returns it; when the lookup of
    the job raises, the exception leaves the view and no response is
    made. *)
Theorem retrieve_succeeds_with_the_job st pk run :
  ModelRun_get st (VStr pk) = Ok run →
  (∀ meta, Job_fetch (ModelRun.job_id run) = Ok meta →
     ModelRunView.retrieve st pk = Ok (respond (RunJson run (Some meta)) HTTP_200_OK)) ∧
  (∀ e, Job_fetch (ModelRun.job_id run) = Raise e →
     ModelRunView.retrieve st pk = Raise e).
Proof.
  intros Hrun. unfold ModelRunView.retrieve. rewrite Hrun. cbn.
  split; intros ? ->; done.
Qed.

(** C9, amended: deleting an existing run answers 204 and removes the
    run, the pods of the run, and the metrics of the run and of those
    pods; every other row stays. *)
Theorem destroy_existing_run_cascades st pk run :
  ModelRun_get st (VStr pk) = Ok run →
  ∃ st',
    ModelRunView.destroy st pk =
      (Ok (respond (Message "Deleted" "The run was deleted" None) HTTP_204_NO_CONTENT), st') ∧
    (∀ r, r ∈ runs st' ↔ r ∈ runs st ∧ ModelRun.id r ≠ ModelRun.id run) ∧
    (∀ p, p ∈ pods st' ↔ p ∈ pods st ∧ KubePod.current_run p ≠ Some (ModelRun.id run)) ∧
    (∀ m, m ∈ metrics st' ↔
          m ∈ metrics st ∧ KubeMetric.model_run m ≠ Some (ModelRun.id run) ∧
          ∀ p, p ∈ pods st → KubePod.current_run p = Some (ModelRun.id run) →
               KubeMetric.pod m ≠ Some (KubePod.id p)).
Proof.
  intros Hrun. exists (ModelRun_delete st run).
  unfold ModelRunView.destroy. rewrite Hrun. split; [done|].
  unfold ModelRun_delete. cbn [runs pods metrics].
  split; [|split].
  - intros r. rewrite list_elem_of_In, filter_In, <- list_elem_of_In.
    by rewrite negb_true_iff, Z.eqb_neq.
  - intros p. rewrite list_elem_of_In, filter_In, <- list_elem_of_In.
    by rewrite negb_true_iff, bool_decide_eq_false.
  - intros m. rewrite list_elem_of_In, filter_In, <- list_elem_of_In.
    rewrite andb_true_iff, !negb_true_iff, bool_decide_eq_false.
    apply and_iff_compat_l, and_iff_compat_l.
    destruct (KubeMetric.pod m) as [i|].
    + rewrite bool_decide_eq_false, list_elem_of_fmap. unfold run_pods. split.
      * intros Hno p Hp Hc [= ->]. apply Hno. exists p. split; [done|].
        apply list_elem_of_In, filter_In. split; [by apply list_elem_of_In|].
        by apply bool_decide_eq_true_2.
      * intros Hno (p & -> & [Hp Hc]%list_elem_of_In%filter_In).
        apply bool_decide_eq_true_1 in Hc. by eapply Hno; [apply list_elem_of_In|..].
    + split; [|done]. intros _ p _ _. done.
Qed.
End Runs.

Lemma create_conflict_or_start_witness :
  ModelRunView.create (lib := sample_library) (be := accepting_backend) 7
      sample_store (run_request (VInt 2)) =
    (Ok (respond (Message "Conflict" "There is already an active run" None)
           HTTP_409_CONFLICT), sample_store) ∧
  ∃ run,
    ModelRunView.create (lib := sample_library) (be := accepting_backend) 7
        empty_store (run_request (VInt 2)) =
      (Ok (respond (RunJson run None) HTTP_201_CREATED),
       mkStore (pods empty_store) (runs empty_store ++ [run]) (metrics empty_store)
         (next_run_id empty_store + 1)) ∧
    ModelRun.state run = STARTED ∧ ModelRun.job_id run = "job-1" ∧
    ModelRun.name run = "r1" ∧ ModelRun.num_workers run = 1 ∧
    ModelRun.network_bandwidth_limit run = 1000.
Proof.
  split.
  - apply (proj1 (create_conflict_or_start (lib := sample_library) (be := accepting_backend)
                    7 sample_store (run_request (VInt 2)))).
    exists sample_run. split; [left|reflexivity].
  - apply (proj2 (create_conflict_or_start (lib := sample_library) (be := accepting_backend)
                    7 empty_store (run_request (VInt 2)))) with (x := two_cores).
    + intros r Hr. inversion Hr.
    + exists (VInt 2), (VStr "r1"), (VInt 1), (VInt 1000).
      repeat split; vm_compute; reflexivity.
    + reflexivity.
Defined.

(** C6, as stated, fails at 2.0 cores: the [cpu_limit] stored is "2000.0m",
    which is not the string "2000m". *)
Lemma create_two_cores_stores_2000_0m :
  let stored :=
    ModelRun.cpu_limit <$>
      runs (ModelRunView.create (lib := sample_library) (be := accepting_backend) 7
              empty_store (run_request (VFloat two_cores))).2 in
  stored = ["2000.0m"] ∧ bool_decide (stored = ["2000m"]) = false.
Proof. vm_compute. split; reflexivity. Qed.

Lemma create_stores_cpu_limit_witness :
  ∃ run,
    runs (ModelRunView.create (lib := sample_library) (be := accepting_backend) 7
            empty_store (run_request (VFloat two_cores))).2 = runs empty_store ++ [run] ∧
    ModelRun.cpu_limit run = float_repr (float_mul two_cores (float_of_Z 1000)) +:+ "m" ∧
    (two_cores = two_cores → ModelRun.cpu_limit run = "2000.0m").
Proof.
  apply (create_stores_cpu_limit (lib := sample_library) (be := accepting_backend)
           7 empty_store (run_request (VFloat two_cores)) two_cores "r1" 1 1000 "job-1").
  - intros r Hr. inversion Hr.
  - exists (VFloat two_cores), (VStr "r1"), (VInt 1), (VInt 1000).
    repeat split; vm_compute; reflexivity.
  - reflexivity.
Defined.

(** C7, as stated, fails when the backend does not know the job of an
    existing run: the request for run 1 makes no response, the exception
    [NoSuchJobError] leaves the view. *)
Lemma retrieve_unknown_job_raises :
  ModelRunView.retrieve (lib := sample_library) (be := forgetful_backend) sample_store "1" =
    Raise NoSuchJobError.
Proof. vm_compute. reflexivity. Qed.

Lemma retrieve_succeeds_with_the_job_witness :
  ModelRunView.retrieve (lib := sample_library) (be := accepting_backend) sample_store "1" =
    Ok (respond (RunJson sample_run (Some ∅)) HTTP_200_OK).
Proof.
  apply (proj1 (retrieve_succeeds_with_the_job (lib := sample_library)
                  (be := accepting_backend) sample_store "1" sample_run eq_refl)).
  reflexivity.
Defined.

(** C9, as stated, fails where no run has the given id: deleting run 7
    from the sample store makes no NotFound response, the exception
    [DoesNotExist] leaves the view. *)
Lemma destroy_missing_run_raises :
  ModelRunView.destroy (lib := sample_library) sample_store "7" =
    (Raise DoesNotExist, sample_store).
Proof. vm_compute. reflexivity. Qed.

Lemma destroy_existing_run_cascades_witness :
  ∃ st',
    ModelRunView.destroy (lib := sample_library) sample_store "1" =
      (Ok (respond (Message "Deleted" "The run was deleted" None) HTTP_204_NO_CONTENT), st') ∧
    (∀ r, r ∈ runs st' ↔ r ∈ runs sample_store ∧ ModelRun.id r ≠ ModelRun.id sample_run) ∧
    (∀ p, p ∈ pods st' ↔
          p ∈ pods sample_store ∧ KubePod.current_run p ≠ Some (ModelRun.id sample_run)) ∧
    (∀ m, m ∈ metrics st' ↔
          m ∈ metrics sample_store ∧ KubeMetric.model_run m ≠ Some (ModelRun.id sample_run) ∧
          ∀ p, p ∈ pods sample_store → KubePod.current_run p = Some (ModelRun.id sample_run) →
               KubeMetric.pod m ≠ Some (KubePod.id p)).
Proof.
  apply (destroy_existing_run_cascades (lib := sample_library) sample_store "1" sample_run).
  reflexivity.
Defined.

(** Deleting run 1 from the sample store empties it. *)
Example destroy_sample_run :
  ModelRunView.destroy (lib := sample_library) sample_store "1" =
    (Ok (respond (Message "Deleted" "The run was deleted" None) HTTP_204_NO_CONTENT),
     mkStore [] [] [] 2).
Proof. vm_compute. reflexivity. Qed.

(** ** The archive of a run *)

(** The archive of a run holds [result.json] and one file per pod of the
    run, named after the pod; each of these files holds the series of the
    metrics of the run, filtered by the run's [created_at] and
    [finished_at]. *)
Lemma retrieve_run_archive {lib : Library} st q pk run since :
  q_format q = "zip" →
  q_metric_type q = Some "run" →
  KubeMetricsView.parse_since (q_since q) = Ok since →
  ModelRun_get st (VStr pk) = Ok run →
  KubeMetricsView.retrieve st q pk =
    Ok (mkResponse
          (Archive
             (("result.json", format_result (run_metrics st run) since None) ::
              ((λ pod, (KubePod.name pod +:+ ".json",
                        format_result (run_metrics st run)
                          (Some (ModelRun.created_at run)) (ModelRun.finished_at run)))
                 <$> run_pods st run)))
          HTTP_200_OK
          [("content-disposition",
            "attachment; filename=metrics_" +:+ secure_filename (ModelRun.name run) +:+ ".zip")]).
Proof.
  intros Hf Ht Hs Hrun. unfold KubeMetricsView.retrieve.
  rewrite Hs, Hf, Ht. unfold mbind, result_bind, default.
  change (String.eqb "run" "pod") with false. change (String.eqb "zip" "zip") with true.
  change (String.eqb "run" "run") with true. cbv iota. by rewrite Hrun.
Qed.

(** C3, at the archive of run 1 of the sample store, whose pod worker-0
    reported "cpu" and whose run reported "loss": the file worker-0.json
    holds the series of the run ("loss") and not the pod's own ("cpu");
    and once the run has finished, at time 10, the file holds no entry,
    the sample of time 6 not being later than the end of the run. *)
Theorem retrieve_archive_pod_file_holds_run_metrics :
  KubeMetricsView.retrieve (lib := sample_library) sample_store archive_of_run "1" =
    Ok (mkResponse
          (Archive
             [("result.json", {[ "loss" := [KubeMetricsSerializer_data run_sample] ]});
              ("worker-0.json", {[ "loss" := [KubeMetricsSerializer_data run_sample] ]})])
          HTTP_200_OK [("content-disposition", "attachment; filename=metrics_r1.zip")]) ∧
  format_result (pod_metrics sample_store sample_pod) (Some 0) None =
    {[ "cpu" := [KubeMetricsSerializer_data pod_sample] ]} ∧
  KubeMetricsView.retrieve (lib := sample_library) finished_store archive_of_run "1" =
    Ok (mkResponse
          (Archive
             [("result.json", {[ "loss" := [KubeMetricsSerializer_data run_sample] ]});
              ("worker-0.json", {[ "loss" := [] ]})])
          HTTP_200_OK [("content-disposition", "attachment; filename=metrics_r1.zip")]).
Proof. repeat split; vm_compute; reflexivity. Qed.

(** * Further properties of the views *)

(** ** [__format_result]: ties and bounds *)

Section Stability.
Context {A K : Type} (key : A → K) (lt eqb : K → K → bool).
Hypothesis eqb_eq : ∀ a b, eqb a b = true ↔ a = b.
Hypothesis lt_irrefl : ∀ a, lt a a = false.

(** A stable sort keeps the elements of one key in their input order. *)
Lemma filter_key_insert_by k x l :
  List.filter (λ y, eqb (key y) k) (insert_by key lt x l) =
  List.filter (λ y, eqb (key y) k) (x :: l).
Proof.
  induction l as [|y l IH]; [done|].
  cbn [insert_by]. destruct (lt (key y) (key x)) eqn:Hyx; [|done].
  cbn [List.filter] in *. rewrite IH.
  destruct (eqb (key x) k) eqn:Hx; [|done].
  destruct (eqb (key y) k) eqn:Hy; [|done].
  apply eqb_eq in Hx, Hy. rewrite Hx, Hy, lt_irrefl in Hyx. done.
Qed.

Lemma filter_key_sorted_by k l :
  List.filter (λ y, eqb (key y) k) (sorted_by key lt l) =
  List.filter (λ y, eqb (key y) k) l.
Proof.
  induction l as [|x l IH]; [done|].
  cbn [sorted_by foldr]. rewrite filter_key_insert_by.
  cbn [List.filter]. fold (sorted_by key lt l). by rewrite IH.
Qed.
End Stability.

Lemma filter_fmap_commute {A B} (f : A → B) (p : B → bool) (l : list A) :
  List.filter p (f <$> l) = f <$> List.filter (λ x, p (f x)) l.
Proof.
  induction l as [|x l IH]; [done|]. cbn. destruct (p (f x)); cbn; by rewrite IH.
Qed.

(** Entries of the same name and the same date come out in the order in
    which the metrics were given. *)
Theorem format_result_ties_keep_input_order metrics since until n l t :
  format_result metrics since until !! n = Some l →
  List.filter (λ e, MetricData.date e =? t) l =
  KubeMetricsSerializer_data <$>
    List.filter (λ m, has_key KubeMetric.name n m && (KubeMetric.date m =? t)
                      && in_window since until m) metrics.
Proof.
  rewrite format_result_lookup.
  destruct (List.filter (has_key KubeMetric.name n) metrics) as [|y f] eqn:Hf; [done|].
  intros [= <-]. rewrite <- Hf. unfold format_entries.
  rewrite filter_fmap_commute. f_equal. cbn.
  rewrite filter_filter_andb.
  rewrite (filter_ext _ (λ m, (KubeMetric.date m =? t) && in_window since until m))
    by (intros m; apply andb_comm).
  rewrite <- filter_filter_andb.
  rewrite (filter_key_sorted_by KubeMetric.date Z.ltb Z.eqb Z.eqb_eq Z.ltb_irrefl).
  rewrite !filter_filter_andb. apply filter_ext. intros m. apply andb_assoc.
Qed.

Lemma format_result_ties_keep_input_order_witness :
  List.filter (λ e, MetricData.date e =? 2)
    [KubeMetricsSerializer_data (sample_at "accuracy" 1);
     KubeMetricsSerializer_data (sample_at "accuracy" 2)] =
  KubeMetricsSerializer_data <$>
    List.filter (λ m, has_key KubeMetric.name "accuracy" m && (KubeMetric.date m =? 2)
                      && in_window None None m) mixed_samples.
Proof.
  assert (H : format_result mixed_samples None None !! "accuracy" =
              Some [KubeMetricsSerializer_data (sample_at "accuracy" 1);
                    KubeMetricsSerializer_data (sample_at "accuracy" 2)])
    by (vm_compute; reflexivity).
  exact (format_result_ties_keep_input_order mixed_samples None None "accuracy" _ 2 H).
Defined.

Lemma in_window_both since until e :
  in_window (Some since) (Some until) e = in_window (Some (Z.max since until)) None e.
Proof. unfold in_window. rewrite andb_true_r. lia. Qed.

(** When both bounds are given they act as one lower bound, the later of
    the two: the result is that of [since = max since until] with no upper
    bound. *)
Theorem format_result_two_bounds_are_one_lower_bound metrics since until :
  format_result metrics (Some since) (Some until) =
  format_result metrics (Some (Z.max since until)) None.
Proof.
  unfold format_result. f_equal. apply list_fmap_ext. intros _ [k g] _.
  unfold format_group, format_entries. cbn. do 2 f_equal.
  apply filter_ext. intros m. apply in_window_both.
Qed.

(** ** [KubeMetricsView.list] *)

Lemma foldl_insert_notin {V} (kvs : list (string * V)) (d : gmap string V) k :
  k ∉ kvs.*1 → foldl (λ d kv, <[kv.1 := kv.2]> d) d kvs !! k = d !! k.
Proof.
  revert d. induction kvs as [|[k0 v0] kvs IH]; intros d Hk; [done|].
  apply not_elem_of_cons in Hk as [Hne Hk]. cbn [foldl fst snd].
  rewrite IH by done. by apply lookup_insert_ne.
Qed.

(** In a dict comprehension the last entry of a key is the one kept. *)
Lemma dict_of_last {V} (l1 l2 : list (string * V)) k v :
  k ∉ l2.*1 → dict_of (l1 ++ (k, v) :: l2) !! k = Some v.
Proof.
  intros Hk. unfold dict_of. rewrite foldl_app. cbn [foldl fst snd].
  rewrite foldl_insert_notin by done. apply lookup_insert_eq.
Qed.

Lemma group_all_format_result metrics :
  KubeMetricsView.group_all metrics = format_result metrics None None.
Proof.
  unfold KubeMetricsView.group_all, format_result. f_equal.
  apply list_fmap_ext. intros _ [k g] _. unfold format_group, format_entries. cbn.
  do 2 f_equal. generalize (foldr (insert_by KubeMetric.date Z.ltb) [] g). intros l.
  induction l as [|x l IH]; [done|]. cbn. by rewrite <- IH.
Qed.

(** [list] shows, under the name of an owner, the grouping of that owner's
    metrics that [__format_result] gives without bounds; when several rows
    bear a name, the last of them is the one shown. *)
Theorem list_shows_the_last_owner_of_a_name st :
  (∀ l1 p l2, pods st = l1 ++ p :: l2 →
     (∀ p', p' ∈ l2 → KubePod.name p' ≠ KubePod.name p) →
     listed_pod_metrics (KubeMetricsView.list st).1 !! KubePod.name p =
       Some (format_result (pod_metrics st p) None None)) ∧
  (∀ l1 r l2, runs st = l1 ++ r :: l2 →
     (∀ r', r' ∈ l2 → ModelRun.name r' ≠ ModelRun.name r) →
     listed_run_metrics (KubeMetricsView.list st).1 !! ModelRun.name r =
       Some (format_result (run_metrics st r) None None)).
Proof.
  split.
  - intros l1 p l2 Hp Hlast. cbn. rewrite Hp, fmap_app, fmap_cons.
    rewrite dict_of_last; [by rewrite group_all_format_result|].
    rewrite <- list_fmap_compose. intros (p' & Hn & Hp')%list_elem_of_fmap.
    by apply (Hlast p').
  - intros l1 r l2 Hr Hlast. cbn. rewrite Hr, fmap_app, fmap_cons.
    rewrite dict_of_last; [by rewrite group_all_format_result|].
    rewrite <- list_fmap_compose. intros (r' & Hn & Hr')%list_elem_of_fmap.
    by apply (Hlast r').
Qed.

Lemma list_shows_the_last_owner_of_a_name_witness :
  listed_pod_metrics (KubeMetricsView.list twin_store).1 !! KubePod.name last_twin_pod =
    Some (format_result (pod_metrics twin_store last_twin_pod) None None) ∧
  listed_run_metrics (KubeMetricsView.list twin_store).1 !! ModelRun.name last_twin_run =
    Some (format_result (run_metrics twin_store last_twin_run) None None).
Proof.
  assert (Hp : ∀ p', p' ∈ [other_pod] → KubePod.name p' ≠ KubePod.name last_twin_pod).
  { intros p' Hp'. apply list_elem_of_singleton in Hp'. by rewrite Hp'. }
  assert (Hr : ∀ r', r' ∈ [other_run] → ModelRun.name r' ≠ ModelRun.name last_twin_run).
  { intros r' Hr'. apply list_elem_of_singleton in Hr'. by rewrite Hr'. }
  exact (conj
    (proj1 (list_shows_the_last_owner_of_a_name twin_store)
       [first_twin_pod] last_twin_pod [other_pod] eq_refl Hp)
    (proj2 (list_shows_the_last_owner_of_a_name twin_store)
       [first_twin_run] last_twin_run [other_run] eq_refl Hr)).
Defined.

(** On that store: under worker-0 and under r1 the series of the later
    twin are listed, those of the earlier twin are not, and the pod and
    the run of another name are listed beside them. *)
Example list_twin_store :
  let shown := (KubeMetricsView.list twin_store).1 in
  map_to_list <$> listed_pod_metrics shown !! "worker-0" =
    Some [("cpu", [MetricData.mk "cpu" 25 "0.2" "" false])] ∧
  map_to_list <$> listed_pod_metrics shown !! "worker-1" =
    Some [("cpu", [MetricData.mk "cpu" 45 "0.3" "" false])] ∧
  map_to_list <$> listed_run_metrics shown !! "r1" =
    Some [("loss", [MetricData.mk "loss" 26 "0.8" "" false])] ∧
  map_to_list <$> listed_run_metrics shown !! "r3" =
    Some [("loss", [MetricData.mk "loss" 46 "0.7" "" false])] ∧
  map_to_list (format_result (pod_metrics twin_store first_twin_pod) None None) =
    [("cpu", [MetricData.mk "cpu" 5 "0.1" "" false])] ∧
  map_to_list (format_result (run_metrics twin_store first_twin_run) None None) =
    [("loss", [MetricData.mk "loss" 6 "0.9" "" false])].
Proof. repeat split; vm_compute; reflexivity. Qed.

(** ** [KubeMetricsView.retrieve] *)

Section Retrieve.
Context {lib : Library}.

Lemma find_pod_none st pk :
  (∀ p, p ∈ pods st → KubePod.name p ≠ pk) →
  KubePod_filter_name_first st (VStr pk) = None.
Proof.
  unfold KubePod_filter_name_first. cbn [py_str].
  induction (pods st) as [|p l IH]; intros Hno; [done|]. cbn [find].
  destruct (String.eqb_spec (KubePod.name p) pk) as [Hp|_].
  - exfalso. apply (Hno p); [left|done].
  - apply IH. intros p' Hp'. apply Hno. by right.
Qed.

Lemma find_pod_unique st p :
  NoDup (KubePod.name <$> pods st) → p ∈ pods st →
  KubePod_filter_name_first st (VStr (KubePod.name p)) = Some p.
Proof.
  unfold KubePod_filter_name_first. cbn [py_str].
  induction (pods st) as [|p0 l IH]; intros Hnd Hp; [by apply elem_of_nil in Hp|].
  cbn [find]. rewrite fmap_cons in Hnd. apply NoDup_cons in Hnd as [Hp0 Hnd].
  apply elem_of_cons in Hp as [->|Hp]; [by rewrite String.eqb_refl|].
  destruct (String.eqb_spec (KubePod.name p0) (KubePod.name p)) as [Heq|_]; [|by apply IH].
  exfalso. apply Hp0. rewrite Heq. apply list_elem_of_fmap. by exists p.
Qed.

Lemma asks_for_pod_default q :
  asks_for_pod q → String.eqb (default "pod" (q_metric_type q)) "pod" = true.
Proof. by intros [->| ->]. Qed.

(** A query for a pod that does not exist makes no response: the view
    reads the metrics off [None] and raises.  So does a query for a run
    that does not exist, where the lookup itself raises; every
    [metric_type] other than "pod" is taken to ask for a run. *)
Theorem retrieve_of_a_missing_owner_raises st q pk since :
  KubeMetricsView.parse_since (q_since q) = Ok since →
  (asks_for_pod q → (∀ p, p ∈ pods st → KubePod.name p ≠ pk) →
     KubeMetricsView.retrieve st q pk = Raise AttributeError) ∧
  (∀ t i, q_metric_type q = Some t → t ≠ "pod" →
     int_of_str pk = Some i → (∀ r, r ∈ runs st → ModelRun.id r ≠ i) →
     KubeMetricsView.retrieve st q pk = Raise DoesNotExist).
Proof.
  intros Hs. unfold KubeMetricsView.retrieve. rewrite Hs.
  unfold mbind at 1, result_bind at 1. split.
  - intros Hq Hno. rewrite (asks_for_pod_default _ Hq).
    by rewrite (find_pod_none _ _ Hno).
  - intros t i Ht Hne Hi Hno. rewrite Ht. change (default "pod" (Some t)) with t.
    apply String.eqb_neq in Hne. rewrite Hne.
    rewrite (ModelRun_get_missing st (VStr pk) i); [done| |done].
    cbn. by rewrite Hi.
Qed.

(** A [since] that does not parse is refused before anything is looked
    up: the view raises [ValueError], whatever the owner asked for. *)
Theorem retrieve_with_malformed_since_raises st q pk s :
  q_since q = Some s → strptime_utc s = None →
  KubeMetricsView.retrieve st q pk = Raise ValueError.
Proof.
  intros Hq Hs. unfold KubeMetricsView.retrieve, KubeMetricsView.parse_since.
  by rewrite Hq, Hs.
Qed.

(** For a pod whose name no other pod bears, the JSON response of
    [retrieve] without [since] is the series [list] shows under that
    name. *)
Theorem retrieve_agrees_with_list st q p :
  q_since q = None → asks_for_pod q → String.eqb (q_format q) "zip" = false →
  NoDup (KubePod.name <$> pods st) → p ∈ pods st →
  ∃ s,
    KubeMetricsView.retrieve st q (KubePod.name p) = Ok (respond (Series s) HTTP_200_OK) ∧
    listed_pod_metrics (KubeMetricsView.list st).1 !! KubePod.name p = Some s.
Proof.
  intros Hs Hq Hf Hnd Hp. exists (format_result (pod_metrics st p) None None). split.
  - unfold KubeMetricsView.retrieve, KubeMetricsView.parse_since. rewrite Hs.
    unfold mbind, result_bind. rewrite (asks_for_pod_default _ Hq).
    by rewrite (find_pod_unique _ _ Hnd Hp), Hf.
  - destruct (list_elem_of_split _ _ Hp) as (l1 & l2 & Hsplit).
    cbn. rewrite Hsplit, fmap_app, fmap_cons.
    rewrite dict_of_last; [by rewrite group_all_format_result|].
    rewrite <- list_fmap_compose. intros (p' & Hn & Hp')%list_elem_of_fmap.
    rewrite Hsplit, fmap_app, fmap_cons in Hnd.
    apply NoDup_app in Hnd as (_ & _ & Hnd). apply NoDup_cons in Hnd as [Hnd _].
    apply Hnd. cbn in Hn. rewrite Hn. apply list_elem_of_fmap. by exists p'.
Qed.

(** Asking for the archive changes the packaging only: when the JSON
    response of a query for a pod or for a run is a series, the archive
    of the same query is made, and its first file is [result.json] with
    that series; the archive of a pod holds no other file. *)
Theorem retrieve_archive_holds_the_json_series st since metric_type pk s :
  asks_for_pod (mkQuery since metric_type "json") ∨ metric_type = Some "run" →
  KubeMetricsView.retrieve st (mkQuery since metric_type "json") pk =
    Ok (respond (Series s) HTTP_200_OK) →
  ∃ files hdr,
    KubeMetricsView.retrieve st (mkQuery since metric_type "zip") pk =
      Ok (mkResponse (Archive (("result.json", s) :: files)) HTTP_200_OK hdr) ∧
    (asks_for_pod (mkQuery since metric_type "json") → files = []).
Proof.
  intros Hmt. unfold KubeMetricsView.retrieve. cbn [q_since q_metric_type q_format].
  destruct (KubeMetricsView.parse_since since) as [t|e]; [|done].
  unfold mbind, result_bind.
  change (String.eqb "json" "zip") with false. change (String.eqb "zip" "zip") with true.
  cbv iota.
  destruct Hmt as [Hpod| ->].
  - assert (Hd : String.eqb (default "pod" metric_type) "pod" = true)
      by (by destruct Hpod as [Hm|Hm]; cbn in Hm; rewrite Hm).
    assert (Hr : String.eqb (default "pod" metric_type) "run" = false)
      by (by destruct Hpod as [Hm|Hm]; cbn in Hm; rewrite Hm).
    rewrite Hd, Hr.
    destruct (KubePod_filter_name_first st (VStr pk)) as [p|]; [|done].
    intros [= <-]. by eexists [], _.
  - change (default "pod" (Some "run")) with "run".
    change (String.eqb "run" "pod") with false.
    change (String.eqb "run" "run") with true. cbv iota.
    destruct (ModelRun_get st (VStr pk)) as [r|e]; [|done].
    intros [= <-]. eexists _, _. split; [done|].
    by intros [Hm|Hm]; cbn in Hm.
Qed.

(** The archive of a run lists [result.json] and then, pod by pod of the
    run, a file named after the pod; it is offered under the name of the
    run. *)
Theorem retrieve_run_archive_files st q pk run since :
  q_format q = "zip" →
  q_metric_type q = Some "run" →
  KubeMetricsView.parse_since (q_since q) = Ok since →
  ModelRun_get st (VStr pk) = Ok run →
  ∃ files,
    KubeMetricsView.retrieve st q pk =
      Ok (mkResponse (Archive files) HTTP_200_OK
            [("content-disposition",
              "attachment; filename=metrics_" +:+ secure_filename (ModelRun.name run)
                +:+ ".zip")]) ∧
    files.*1 = "result.json" :: ((λ p, KubePod.name p +:+ ".json") <$> run_pods st run) ∧
    length files = S (length (run_pods st run)).
Proof.
  intros Hf Ht Hs Hrun. eexists. split; [by apply retrieve_run_archive|].
  rewrite fmap_cons, <- list_fmap_compose. split; [done|].
  cbn [length]. by rewrite length_fmap.
Qed.
End Retrieve.

(** ** [KubeMetricsView.create]: what is stored *)

Section Stored.
Context {lib : Library}.

Lemma KubeMetric_save_inv st name date value metadata cumulative pod model_run r st' :
  KubeMetric_save st name date value metadata cumulative pod model_run = (r, st') →
  (∃ m, r = Ok m ∧ st' = add_metric st m ∧
        KubeMetric.pod m = pod ∧ KubeMetric.model_run m = model_run) ∨
  (∃ e, r = Raise e ∧ st' = st).
Proof.
  unfold KubeMetric_save.
  destruct (prep_bool cumulative) as [c|e]; [|intros [= <- <-]; right; by eexists].
  destruct (prep_char name) as [n|]; [|intros [= <- <-]; right; by eexists].
  destruct date as [t|]; [|intros [= <- <-]; right; by eexists].
  destruct (prep_char value) as [v|]; [|intros [= <- <-]; right; by eexists].
  destruct (prep_char metadata) as [md|]; [|intros [= <- <-]; right; by eexists].
  destruct c as [c|]; [|intros [= <- <-]; right; by eexists].
  intros [= <- <-]. left. by eexists.
Qed.

Lemma store_metric_inv st d pod model_run r st' :
  KubeMetricsView.store_metric st d pod model_run = (r, st') →
  (∃ m, r = Ok m ∧ st' = add_metric st m ∧
        KubeMetric.pod m = pod ∧ KubeMetric.model_run m = model_run) ∨
  (∃ e, r = Raise e ∧ st' = st).
Proof.
  unfold KubeMetricsView.store_metric.
  destruct (_ ≫= _) as [[[[[name date] value] metadata] cumulative]|e].
  - apply KubeMetric_save_inv.
  - intros [= <- <-]. right. by eexists.
Qed.

Lemma find_pod_elem st v p :
  KubePod_filter_name_first st v = Some p → p ∈ pods st.
Proof.
  unfold KubePod_filter_name_first. destruct v; try done.
  all: intros [Hin _]%find_some; by apply list_elem_of_In.
Qed.

Lemma ModelRun_get_elem st v r :
  ModelRun_get st v = Ok r → r ∈ runs st.
Proof.
  unfold ModelRun_get. destruct v; try done.
  all: destruct (py_int _) as [pk|]; [|done]; cbn.
  all: destruct (List.find _ (runs st)) as [r'|] eqn:Hf; [|done].
  all: intros [= <-]; apply find_some in Hf as [Hin _]; by apply list_elem_of_In.
Qed.

(** A metric is stored exactly when the answer is 201, by appending one
    row; pods and runs are never touched, and whatever else the view
    answers or raises, the store is left as it was. *)
Theorem create_stores_exactly_on_201 st d r st' :
  KubeMetricsView.create st d = (r, st') →
  pods st' = pods st ∧ runs st' = runs st ∧ next_run_id st' = next_run_id st ∧
  ((∃ resp m, r = Ok resp ∧ status resp = HTTP_201_CREATED ∧
              metrics st' = metrics st ++ [m]) ∨
   (st' = st ∧ ∀ resp, r = Ok resp → status resp ≠ HTTP_201_CREATED)).
Proof.
  unfold KubeMetricsView.create.
  destruct (d !! "pod_name") as [pod_name|].
  - destruct (KubePod_filter_name_first st pod_name) as [pod|].
    + destruct (KubeMetricsView.store_metric _ _ _ _) as [r0 st0] eqn:Hs.
      apply store_metric_inv in Hs as [(m & -> & -> & _)|(e & -> & ->)].
      * intros [= <- <-]. repeat split; try done. left. by eexists _, m.
      * intros [= <- <-]. repeat split; try done. by right.
    + intros [= <- <-]. repeat split; try done. right. split; [done|]. by intros ? [= <-].
  - destruct (d !! "run_id") as [run_id|].
    + destruct (ModelRun_get st run_id) as [run|e].
      * destruct (KubeMetricsView.store_metric _ _ _ _) as [r0 st0] eqn:Hs.
        apply store_metric_inv in Hs as [(m & -> & -> & _)|(e & -> & ->)].
        -- intros [= <- <-]. repeat split; try done. left. by eexists _, m.
        -- intros [= <- <-]. repeat split; try done. by right.
      * intros [= <- <-]. repeat split; try done. by right.
    + intros [= <- <-]. repeat split; try done. right. split; [done|]. by intros ? [= <-].
Qed.

(** If every stored metric has exactly one owner, in the store, then so
    it is after [create]: a metric is stored for the pod found, or else
    for the run found, and never for both. *)
Theorem create_keeps_one_owner st d r st' :
  KubeMetricsView.create st d = (r, st') →
  Forall (one_owner st) (metrics st) →
  Forall (one_owner st') (metrics st').
Proof.
  unfold KubeMetricsView.create.
  destruct (d !! "pod_name") as [pod_name|].
  - destruct (KubePod_filter_name_first st pod_name) as [pod|] eqn:Hpod;
      [|by intros [= <- <-]].
    destruct (KubeMetricsView.store_metric _ _ _ _) as [r0 st0] eqn:Hs.
    apply store_metric_inv in Hs as [(m & -> & -> & Hp & Hr)|(e & -> & ->)];
      [|by intros [= <- <-]].
    intros [= <- <-] Hall. cbn [metrics add_metric]. apply Forall_app. split; [done|].
    apply Forall_singleton. left. exists pod. by apply find_pod_elem in Hpod.
  - destruct (d !! "run_id") as [run_id|]; [|by intros [= <- <-]].
    destruct (ModelRun_get st run_id) as [run|e] eqn:Hrun; [|by intros [= <- <-]].
    destruct (KubeMetricsView.store_metric _ _ _ _) as [r0 st0] eqn:Hs.
    apply store_metric_inv in Hs as [(m & -> & -> & Hp & Hr)|(e & -> & ->)];
      [|by intros [= <- <-]].
    intros [= <- <-] Hall. cbn [metrics add_metric]. apply Forall_app. split; [done|].
    apply Forall_singleton. right. exists run. by apply ModelRun_get_elem in Hrun.
Qed.

Lemma create_for_a_run st d run_id run n t v md c :
  d !! "pod_name" = None →
  d !! "run_id" = Some run_id →
  ModelRun_get st run_id = Ok run →
  KubeMetricsView.metric_fields d n t v md c →
  let metric := KubeMetric.mk n t v md c None (Some (ModelRun.id run)) in
  KubeMetricsView.create st d =
    (Ok (respond (MetricJson (KubeMetricsSerializer_data metric)) HTTP_201_CREATED),
     add_metric st metric).
Proof.
  intros Hp Hr Hrun Hf metric. unfold KubeMetricsView.create.
  by rewrite Hp, Hr, Hrun, (store_metric_ok _ _ _ _ _ _ _ _ _ Hf).
Qed.

(** A payload that names a run, and no pod, and carries the fields of a
    sample: when the run exists the answer is 201 with the stored
    representation, and the store after the request is the store before
    it with one row more at the end of the metrics, the sample with the
    run as its only owner. *)
Theorem create_for_a_run_stores_for_the_run st d run_id run n t v md c :
  d !! "pod_name" = None →
  d !! "run_id" = Some run_id →
  ModelRun_get st run_id = Ok run →
  KubeMetricsView.metric_fields d n t v md c →
  let metric := KubeMetric.mk n t v md c None (Some (ModelRun.id run)) in
  KubeMetricsView.create st d =
    (Ok (respond (MetricJson (KubeMetricsSerializer_data metric)) HTTP_201_CREATED),
     mkStore (pods st) (runs st) (metrics st ++ [metric]) (next_run_id st)).
Proof. apply create_for_a_run. Qed.
End Stored.

Section MissingField.
Context {lib : Library}.

Lemma store_metric_missing st d pod model_run k :
  k ∈ metric_keys → d !! k = None →
  (∀ k', k' ∈ metric_keys → k' ≠ k → is_Some (d !! k')) →
  (k ≠ "date" → ∃ s o, d !! "date" = Some (VStr s) ∧ parse_datetime s = Ok o) →
  KubeMetricsView.store_metric st d pod model_run = (Raise (KeyError k), st).
Proof.
  intros Hk Hnone Hall Hdate. unfold KubeMetricsView.store_metric, getitem.
  assert (Hget : ∀ k', k' ∈ metric_keys → k' ≠ k → ∃ v, d !! k' = Some v).
  { intros k' H1 H2. destruct (Hall k' H1 H2) as [v Hv]. by exists v. }
  unfold metric_keys in *.
  destruct (decide (k = "name")) as [->|Hn]; [by rewrite Hnone|].
  destruct (Hget "name") as [vn ->]; [apply list_elem_of_In; cbn; tauto|done|].
  destruct (decide (k = "date")) as [->|Hd]; [by rewrite Hnone|].
  destruct (Hdate Hd) as (s & o & -> & Hparse).
  unfold mbind, result_bind. rewrite Hparse.
  destruct (decide (k = "value")) as [->|Hv]; [by rewrite Hnone|].
  destruct (Hget "value") as [vv ->]; [apply list_elem_of_In; cbn; tauto|done|].
  destruct (decide (k = "metadata")) as [->|Hm]; [by rewrite Hnone|].
  destruct (Hget "metadata") as [vm ->]; [apply list_elem_of_In; cbn; tauto|done|].
  destruct (decide (k = "cumulative")) as [->|Hc]; [by rewrite Hnone|].
  exfalso. repeat (apply elem_of_cons in Hk as [->|Hk]; [done|]).
  by apply elem_of_nil in Hk.
Qed.

(** A payload whose owner is found and that lacks one of the five
    fields of a sample, the others being there and the date one that
    parses, is not answered: reading the field raises [KeyError] with the
    name of the field, and nothing is stored. *)
Theorem create_without_a_field_raises st d k :
  (∃ pod_name pod, d !! "pod_name" = Some pod_name ∧
                   KubePod_filter_name_first st pod_name = Some pod) ∨
  (d !! "pod_name" = None ∧
   ∃ run_id run, d !! "run_id" = Some run_id ∧ ModelRun_get st run_id = Ok run) →
  k ∈ metric_keys → d !! k = None →
  (∀ k', k' ∈ metric_keys → k' ≠ k → is_Some (d !! k')) →
  (k ≠ "date" → ∃ s o, d !! "date" = Some (VStr s) ∧ parse_datetime s = Ok o) →
  KubeMetricsView.create st d = (Raise (KeyError k), st).
Proof.
  intros Howner Hk Hnone Hall Hdate. unfold KubeMetricsView.create.
  destruct Howner as [(pn & pod & -> & ->)|(-> & rid & run & -> & ->)];
    by rewrite (store_metric_missing _ _ _ _ _ Hk Hnone Hall Hdate).
Qed.

Lemma filter_app_singleton {A} (f : A → bool) l x :
  f x = true → List.filter f (l ++ [x]) = List.filter f l ++ [x].
Proof. intros Hx. rewrite List.filter_app. cbn. by rewrite Hx. Qed.

(** What is ingested for a run is retrieved for it: after a payload for
    a run has been stored, the series of that run, asked without
    [since], has the sample's name among its keys and the sample among
    the entries of that name. *)
Theorem ingested_metric_is_retrieved st d run_id run n t v md c pk :
  d !! "pod_name" = None →
  d !! "run_id" = Some run_id →
  ModelRun_get st run_id = Ok run →
  KubeMetricsView.metric_fields d n t v md c →
  ModelRun_get st (VStr pk) = Ok run →
  ∃ s l,
    KubeMetricsView.retrieve (KubeMetricsView.create st d).2
      (mkQuery None (Some "run") "json") pk = Ok (respond (Series s) HTTP_200_OK) ∧
    s !! n = Some l ∧
    MetricData.mk n t v md c ∈ l.
Proof.
  intros Hp Hr Hrun Hf Hpk.
  rewrite (create_for_a_run _ _ _ _ _ _ _ _ _ Hp Hr Hrun Hf).
  cbn [snd]. set (m := KubeMetric.mk n t v md c None (Some (ModelRun.id run))).
  assert (Hget : ModelRun_get (add_metric st m) (VStr pk) = Ok run) by exact Hpk.
  set (ms := run_metrics (add_metric st m) run).
  assert (Hm : m ∈ ms).
  { unfold ms, run_metrics. cbn [metrics add_metric]. rewrite filter_app_singleton.
    - apply elem_of_app. right. by left.
    - by apply bool_decide_eq_true_2. }
  assert (Hsome : is_Some (format_result ms None None !! n)).
  { apply format_result_keys. by exists m. }
  destruct Hsome as [l Hl]. exists (format_result ms None None), l. split; [|split].
  - unfold KubeMetricsView.retrieve. cbn [q_since q_metric_type q_format].
    unfold KubeMetricsView.parse_since, mbind, result_bind.
    change (default "pod" (Some "run")) with "run".
    change (String.eqb "run" "pod") with false. change (String.eqb "json" "zip") with false.
    cbv iota. by rewrite Hget.
  - done.
  - apply (format_result_since ms None n l _ Hl). exists m. by repeat split.
Qed.
End MissingField.

(** ** [ModelRunView]: the active run *)

Section ActiveRun.
Context {lib : Library} {be : Backend}.

Lemma ModelRun_start_inv now a st r st' :
  ModelRun_start now a st = (r, st') →
  (∃ e, r = Raise e ∧ st' = st) ∨
  (∃ run, st' = add_run st run ∧
          ((r = Ok run ∧ ModelRun.state run = STARTED) ∨
           (∃ e, r = Raise e) ∧ ModelRun.state run = FAILED)).
Proof.
  unfold ModelRun_start.
  destruct (_ ≫= _) as [run|e]; [|intros [= <- <-]; left; by eexists].
  destruct (enqueue run) as [job|e]; intros [= <- <-]; right; eexists; split; try done.
  - by left.
  - right. split; [by eexists|done].
Qed.

(** What a create-run request leaves behind: the store as it was, or
    the store with one run appended, STARTED when the request was
    answered and FAILED when it was not. *)
Lemma create_inv now st d r st' :
  ModelRunView.create now st d = (r, st') →
  (st' = st ∧ ((∃ run, run ∈ runs st ∧ ModelRun.state run = STARTED) ∨ ∃ e, r = Raise e)) ∨
  (ModelRun_filter_state st STARTED = [] ∧
   ∃ run, st' = add_run st run ∧
          ((∃ resp, r = Ok resp ∧ ModelRun.state run = STARTED) ∨
           (∃ e, r = Raise e) ∧ ModelRun.state run = FAILED)).
Proof.
  unfold ModelRunView.create.
  destruct (ModelRun_filter_state st STARTED) as [|r0 l] eqn:Hact.
  - cbn [length Z.of_nat Z.gtb Z.compare].
    destruct (_ ≫= _) as [a|e]; [|intros [= <- <-]; left; split; [done|right; by eexists]].
    destruct (ModelRun_start now a st) as [r1 st1] eqn:Hs.
    apply ModelRun_start_inv in Hs as [(e & -> & ->)|(run & -> & Hr)].
    + intros [= <- <-]. left. split; [done|right; by eexists].
    + destruct Hr as [[-> Hst]|[[e ->] Hst]]; intros [= <- <-]; right; split; try done;
        exists run; split; try done.
      * left. by eexists.
      * right. split; [by eexists|done].
  - assert (Hin : In r0 (ModelRun_filter_state st STARTED)) by (rewrite Hact; by left).
    apply filter_In in Hin as [Hin Hs%bool_decide_eq_true_1].
    replace (Z.of_nat (length (r0 :: l)) >? 0) with true
      by (symmetry; apply Z.gtb_lt; cbn [length]; lia).
    intros [= <- <-]. left. split; [done|]. left. exists r0.
    by rewrite list_elem_of_In.
Qed.

Lemma filter_state_add_run st run s :
  ModelRun_filter_state (add_run st run) s =
  ModelRun_filter_state st s ++ (if bool_decide (ModelRun.state run = s) then [run] else []).
Proof. unfold ModelRun_filter_state. cbn [runs add_run]. by rewrite List.filter_app. Qed.

(** [create] keeps the single-active-run invariant: a store with at most
    one STARTED run has at most one after the request, whatever the
    request and however it ends. *)
Theorem create_keeps_at_most_one_started now st d r st' :
  ModelRunView.create now st d = (r, st') →
  at_most_one_started st → at_most_one_started st'.
Proof.
  intros [[-> _]|(Hnone & run & -> & Hr)]%create_inv Hone; [done|].
  unfold at_most_one_started. rewrite filter_state_add_run, Hnone.
  destruct (bool_decide _); cbn; lia.
Qed.

(** Once a create-run request has been answered, with 201 or with 409,
    the store holds a STARTED run; and on every store in which that row
    stands as it is, the one the request left or a later one, whatever
    its other rows, every create-run request, at any time and with any
    body, is answered 409 and changes nothing.  The row stops standing
    when the run finishes, fails or is deleted, and then the property
    says nothing. *)
Theorem create_after_an_answered_create_conflicts now st d resp st' :
  ModelRunView.create now st d = (Ok resp, st') →
  ∃ run, run ∈ runs st' ∧ ModelRun.state run = STARTED ∧
    ∀ now' st'' d', run ∈ runs st'' →
      ModelRunView.create now' st'' d' =
        (Ok (respond (Message "Conflict" "There is already an active run" None)
               HTTP_409_CONFLICT), st'').
Proof.
  intros [[-> Hr]|(_ & run & -> & Hr)]%create_inv.
  - destruct Hr as [(run & Hin & Hs)|[e [=]]]. exists run. repeat split; try done.
    intros now' st'' d' Hin'. by eapply create_conflict.
  - destruct Hr as [(resp' & _ & Hs)|[[e [=]] _]]. exists run. repeat split; try done.
    + cbn [runs add_run]. apply elem_of_app. right. by left.
    + intros now' st'' d' Hin'. by eapply create_conflict.
Qed.

(** A create-run request that lacks one of its four fields, when no run
    is STARTED, the other fields being there and the number of cores one
    that converts: reading the field raises [KeyError] with its name, and
    the store is left as it was. *)
Theorem create_run_without_a_field_raises now st d k :
  (∀ r, r ∈ runs st → ModelRun.state r ≠ STARTED) →
  k ∈ run_keys → d !! k = None →
  (∀ k', k' ∈ run_keys → k' ≠ k → is_Some (d !! k')) →
  (k ≠ "num_cpus" → ∃ v x, d !! "num_cpus" = Some v ∧ py_float v = Ok x) →
  ModelRunView.create now st d = (Raise (KeyError k), st).
Proof.
  intros Hno Hk Hnone Hall Hcpu. unfold ModelRunView.create.
  rewrite (filter_state_nil _ _ Hno). cbn [length Z.of_nat Z.gtb Z.compare].
  unfold getitem, ModelRunView.cpu_limit_of.
  assert (Hget : ∀ k', k' ∈ run_keys → k' ≠ k → ∃ v, d !! k' = Some v).
  { intros k' H1 H2. destruct (Hall k' H1 H2) as [v Hv]. by exists v. }
  unfold run_keys in *.
  destruct (decide (k = "num_cpus")) as [->|Hc]; [by rewrite Hnone|].
  destruct (Hcpu Hc) as (v & x & -> & Hx).
  unfold mbind, result_bind. rewrite Hx.
  destruct (decide (k = "name")) as [->|Hn]; [by rewrite Hnone|].
  destruct (Hget "name") as [vn ->]; [apply list_elem_of_In; cbn; tauto|done|].
  destruct (decide (k = "num_workers")) as [->|Hw]; [by rewrite Hnone|].
  destruct (Hget "num_workers") as [vw ->]; [apply list_elem_of_In; cbn; tauto|done|].
  destruct (decide (k = "max_bandwidth")) as [->|Hb]; [by rewrite Hnone|].
  exfalso. repeat (apply elem_of_cons in Hk as [->|Hk]; [done|]).
  by apply elem_of_nil in Hk.
Qed.

Lemma find_delete_none st run :
  List.find (λ r, ModelRun.id r =? ModelRun.id run) (runs (ModelRun_delete st run)) = None.
Proof.
  unfold ModelRun_delete. cbn [runs].
  induction (runs st) as [|r l IH]; [done|]. cbn [List.filter].
  destruct (ModelRun.id r =? ModelRun.id run) eqn:Hid; cbn [negb]; [done|].
  cbn [find]. by rewrite Hid.
Qed.

(** A run that has been deleted is gone: deleting it again, or asking
    for its detail or for its metrics, raises [DoesNotExist]. *)
Theorem destroyed_run_is_gone st pk resp st' q since :
  ModelRunView.destroy st pk = (Ok resp, st') →
  KubeMetricsView.parse_since (q_since q) = Ok since →
  q_metric_type q = Some "run" →
  ModelRunView.destroy st' pk = (Raise DoesNotExist, st') ∧
  ModelRunView.retrieve st' pk = Raise DoesNotExist ∧
  KubeMetricsView.retrieve st' q pk = Raise DoesNotExist.
Proof.
  unfold ModelRunView.destroy at 1.
  destruct (ModelRun_get st (VStr pk)) as [run|e] eqn:Hget; [|done].
  intros [= <- <-] Hs Ht.
  assert (Hgone : ModelRun_get (ModelRun_delete st run) (VStr pk) = Raise DoesNotExist).
  { destruct (to_int (VStr pk)) as [i|e] eqn:Hi;
      [|unfold to_int in Hi; unfold ModelRun_get in Hget; by rewrite Hi in Hget].
    rewrite (ModelRun_get_pk _ _ _ Hi) in Hget. rewrite (ModelRun_get_pk _ _ _ Hi).
    destruct (List.find _ (runs st)) as [r|] eqn:Hf; [|done].
    injection Hget as ->. apply find_some in Hf as [_ Hid%Z.eqb_eq]. subst i.
    by rewrite find_delete_none. }
  split; [|split].
  - unfold ModelRunView.destroy. by rewrite Hgone.
  - unfold ModelRunView.retrieve. by rewrite Hgone.
  - unfold KubeMetricsView.retrieve. rewrite Hs, Ht.
    unfold mbind at 1, result_bind at 1.
    change (default "pod" (Some "run")) with "run".
    change (String.eqb "run" "pod") with false. cbv iota. by rewrite Hgone.
Qed.

(** Asking for the detail of a run that does not exist, or deleting it,
    makes no response: the lookup raises [DoesNotExist], and the store
    is left as it was. *)
Theorem run_views_on_a_missing_run_raise st pk i :
  int_of_str pk = Some i →
  (∀ r, r ∈ runs st → ModelRun.id r ≠ i) →
  ModelRunView.retrieve st pk = Raise DoesNotExist ∧
  ModelRunView.destroy st pk = (Raise DoesNotExist, st).
Proof.
  intros Hi Hno.
  assert (Hget : ModelRun_get st (VStr pk) = Raise DoesNotExist).
  { apply (ModelRun_get_missing st (VStr pk) i); [|done]. cbn. by rewrite Hi. }
  unfold ModelRunView.retrieve, ModelRunView.destroy. by rewrite Hget.
Qed.
End ActiveRun.

(** ** The CPU limit of whole cores *)

(** The sample library reads numerals as [float] does, the sign of a zero
    included. *)
Example cpu_limit_of_numerals :
  py_float (lib := sample_library) (VStr "-0") = Ok (S754_zero true) ∧
  py_float (lib := sample_library) (VStr "0") = Ok (S754_zero false) ∧
  ModelRunView.cpu_limit_of (lib := sample_library) (VStr "-0") = Ok "-0.0m" ∧
  ModelRunView.cpu_limit_of (lib := sample_library) (VStr "0") = Ok "0.0m" ∧
  ModelRunView.cpu_limit_of (lib := sample_library) (VStr "2") = Ok "2000.0m" ∧
  ModelRunView.cpu_limit_of (lib := sample_library) (VStr "-2") = Ok "-2000.0m".
Proof. repeat split; vm_compute; reflexivity. Qed.

(** For a whole number of cores from 1 to 1024, given as an integer or as
    a float, the CPU limit is the number of millicores written with the
    fraction ".0", and the letter m. *)
Theorem cpu_limit_of_whole_cores {lib : Library} n :
  1 ≤ n ≤ 1024 →
  ModelRunView.cpu_limit_of (VInt n) = Ok (pretty (1000 * n) +:+ ".0m") ∧
  ModelRunView.cpu_limit_of (VFloat (float_of_Z n)) = Ok (pretty (1000 * n) +:+ ".0m").
Proof.
  intros Hn.
  assert (Hall : forallb whole_cores_ok (seqZ 1 1024) = true) by (vm_compute; reflexivity).
  rewrite forallb_forall in Hall.
  assert (Hin : In n (seqZ 1 1024)) by (apply list_elem_of_In, elem_of_seqZ; lia).
  apply Hall in Hin. unfold whole_cores_ok in Hin.
  destruct (ModelRunView.cpu_limit_of (VInt n)) as [s|]; [|done].
  destruct (ModelRunView.cpu_limit_of (VFloat _)) as [s'|]; [|done].
  apply andb_true_iff in Hin as [->%String.eqb_eq ->%String.eqb_eq]. done.
Qed.

Lemma cpu_limit_of_whole_cores_witness :
  ModelRunView.cpu_limit_of (lib := sample_library) (VInt 4) = Ok (pretty (1000 * 4) +:+ ".0m") ∧
  ModelRunView.cpu_limit_of (lib := sample_library) (VFloat (float_of_Z 4)) =
    Ok (pretty (1000 * 4) +:+ ".0m").
Proof.
  assert (H : 1 ≤ 4 ≤ 1024) by lia.
  exact (cpu_limit_of_whole_cores (lib := sample_library) 4 H).
Defined.

(** ** The properties above, on the sample environments *)

Lemma retrieve_of_a_missing_owner_raises_witness :
  KubeMetricsView.retrieve (lib := sample_library) sample_store (mkQuery None None "json")
    "ghost" = Raise AttributeError.
Proof.
  assert (Hno : ∀ p, p ∈ pods sample_store → KubePod.name p ≠ "ghost").
  { intros p Hp. unfold sample_store in Hp. cbn [pods] in Hp.
    apply list_elem_of_singleton in Hp as ->. done. }
  exact (proj1 (retrieve_of_a_missing_owner_raises (lib := sample_library) sample_store
                  (mkQuery None None "json") "ghost" None eq_refl)
           (or_introl eq_refl) Hno).
Defined.

Lemma retrieve_with_malformed_since_raises_witness :
  KubeMetricsView.retrieve (lib := sample_library) sample_store
    (mkQuery (Some "yesterday") None "json") "worker-0" = Raise ValueError.
Proof.
  exact (retrieve_with_malformed_since_raises (lib := sample_library) sample_store
           (mkQuery (Some "yesterday") None "json") "worker-0" "yesterday" eq_refl eq_refl).
Defined.

Lemma retrieve_agrees_with_list_witness :
  ∃ s,
    KubeMetricsView.retrieve (lib := sample_library) sample_store (mkQuery None None "json")
      (KubePod.name sample_pod) = Ok (respond (Series s) HTTP_200_OK) ∧
    listed_pod_metrics (KubeMetricsView.list sample_store).1 !! KubePod.name sample_pod = Some s.
Proof.
  assert (Hnd : NoDup (KubePod.name <$> pods sample_store)) by apply NoDup_singleton.
  assert (Hp : sample_pod ∈ pods sample_store) by left.
  exact (retrieve_agrees_with_list (lib := sample_library) sample_store
           (mkQuery None None "json") sample_pod eq_refl (or_introl eq_refl) eq_refl Hnd Hp).
Defined.

Lemma retrieve_archive_holds_the_json_series_witness :
  ∃ files hdr,
    KubeMetricsView.retrieve (lib := sample_library) sample_store
      (mkQuery None (Some "run") "zip") "1" =
      Ok (mkResponse
            (Archive (("result.json", format_result (run_metrics sample_store sample_run) None None)
                      :: files)) HTTP_200_OK hdr) ∧
    (asks_for_pod (mkQuery None (Some "run") "json") → files = []).
Proof.
  assert (H : KubeMetricsView.retrieve (lib := sample_library) sample_store
                (mkQuery None (Some "run") "json") "1" =
              Ok (respond (Series (format_result (run_metrics sample_store sample_run) None None))
                    HTTP_200_OK)) by (vm_compute; reflexivity).
  exact (retrieve_archive_holds_the_json_series (lib := sample_library) sample_store None
           (Some "run") "1" _ (or_intror eq_refl) H).
Defined.

Lemma retrieve_run_archive_files_witness :
  ∃ files,
    KubeMetricsView.retrieve (lib := sample_library) sample_store archive_of_run "1" =
      Ok (mkResponse (Archive files) HTTP_200_OK
            [("content-disposition",
              "attachment; filename=metrics_"
                +:+ secure_filename (Library := sample_library) (ModelRun.name sample_run)
                +:+ ".zip")]) ∧
    files.*1 = "result.json" :: ((λ p, KubePod.name p +:+ ".json")
                                   <$> run_pods sample_store sample_run) ∧
    length files = S (length (run_pods sample_store sample_run)).
Proof.
  assert (H : ModelRun_get (lib := sample_library) sample_store (VStr "1") = Ok sample_run)
    by (vm_compute; reflexivity).
  exact (retrieve_run_archive_files (lib := sample_library) sample_store archive_of_run "1"
           sample_run None eq_refl eq_refl eq_refl H).
Defined.

Lemma create_stores_exactly_on_201_witness :
  let st' := add_metric sample_store run_payload_metric in
  pods st' = pods sample_store ∧ runs st' = runs sample_store ∧
  next_run_id st' = next_run_id sample_store ∧
  ((∃ resp m,
      Ok (respond (MetricJson (KubeMetricsSerializer_data run_payload_metric))
            HTTP_201_CREATED) = Ok resp ∧
      status resp = HTTP_201_CREATED ∧ metrics st' = metrics sample_store ++ [m]) ∨
   (st' = sample_store ∧
    ∀ resp,
      Ok (respond (MetricJson (KubeMetricsSerializer_data run_payload_metric))
            HTTP_201_CREATED) = Ok resp → status resp ≠ HTTP_201_CREATED)).
Proof.
  assert (H : KubeMetricsView.create (lib := sample_library) sample_store run_payload =
              (Ok (respond (MetricJson (KubeMetricsSerializer_data run_payload_metric))
                     HTTP_201_CREATED), add_metric sample_store run_payload_metric))
    by (vm_compute; reflexivity).
  exact (create_stores_exactly_on_201 (lib := sample_library) sample_store run_payload _ _ H).
Defined.

Lemma sample_store_one_owner : Forall (one_owner sample_store) (metrics sample_store).
Proof.
  change (metrics sample_store) with [pod_sample; run_sample].
  apply Forall_cons. split; [|apply Forall_singleton].
  - left. exists sample_pod. split; [left|done].
  - right. exists sample_run. split; [left|done].
Qed.

Lemma create_keeps_one_owner_witness :
  Forall (one_owner (add_metric sample_store run_payload_metric))
    (metrics (add_metric sample_store run_payload_metric)).
Proof.
  assert (H : KubeMetricsView.create (lib := sample_library) sample_store run_payload =
              (Ok (respond (MetricJson (KubeMetricsSerializer_data run_payload_metric))
                     HTTP_201_CREATED), add_metric sample_store run_payload_metric))
    by (vm_compute; reflexivity).
  exact (create_keeps_one_owner (lib := sample_library) sample_store run_payload _ _ H
           sample_store_one_owner).
Defined.

Lemma run_payload_fields :
  KubeMetricsView.metric_fields (lib := sample_library) run_payload
    "loss" sample_time "0.5" "" false.
Proof.
  exists (VStr "loss"), sample_date, (VStr "0.5"), (VStr ""), (VBool false).
  repeat split; vm_compute; reflexivity.
Qed.

Lemma create_for_a_run_stores_for_the_run_witness :
  let metric := KubeMetric.mk "loss" sample_time "0.5" "" false None
                  (Some (ModelRun.id sample_run)) in
  KubeMetricsView.create (lib := sample_library) sample_store run_payload =
    (Ok (respond (MetricJson (KubeMetricsSerializer_data metric)) HTTP_201_CREATED),
     mkStore [sample_pod] [sample_run] [pod_sample; run_sample; metric] 2).
Proof.
  assert (Hp : run_payload !! "pod_name" = None) by (vm_compute; reflexivity).
  assert (Hr : run_payload !! "run_id" = Some (VStr "1")) by (vm_compute; reflexivity).
  assert (Hrun : ModelRun_get (lib := sample_library) sample_store (VStr "1") = Ok sample_run)
    by (vm_compute; reflexivity).
  exact (create_for_a_run_stores_for_the_run (lib := sample_library) sample_store run_payload
           (VStr "1") sample_run "loss" sample_time "0.5" "" false Hp Hr Hrun
           run_payload_fields).
Defined.

Lemma ingested_metric_is_retrieved_witness :
  ∃ s l,
    KubeMetricsView.retrieve (lib := sample_library)
      (KubeMetricsView.create (lib := sample_library) sample_store run_payload).2
      (mkQuery None (Some "run") "json") "1" = Ok (respond (Series s) HTTP_200_OK) ∧
    s !! "loss" = Some l ∧
    MetricData.mk "loss" sample_time "0.5" "" false ∈ l.
Proof.
  assert (Hp : run_payload !! "pod_name" = None) by (vm_compute; reflexivity).
  assert (Hr : run_payload !! "run_id" = Some (VStr "1")) by (vm_compute; reflexivity).
  assert (Hrun : ModelRun_get (lib := sample_library) sample_store (VStr "1") = Ok sample_run)
    by (vm_compute; reflexivity).
  exact (ingested_metric_is_retrieved (lib := sample_library) sample_store run_payload
           (VStr "1") sample_run "loss" sample_time "0.5" "" false "1" Hp Hr Hrun
           run_payload_fields Hrun).
Defined.

Lemma create_without_a_field_raises_witness :
  KubeMetricsView.create (lib := sample_library) sample_store (delete "value" run_payload) =
    (Raise (KeyError "value"), sample_store).
Proof.
  assert (Howner :
    (∃ pod_name pod, delete "value" run_payload !! "pod_name" = Some pod_name ∧
       KubePod_filter_name_first sample_store pod_name = Some pod) ∨
    (delete "value" run_payload !! "pod_name" = None ∧
     ∃ run_id run, delete "value" run_payload !! "run_id" = Some run_id ∧
       ModelRun_get (lib := sample_library) sample_store run_id = Ok run)).
  { right. split; [vm_compute; reflexivity|].
    exists (VStr "1"), sample_run. split; vm_compute; reflexivity. }
  assert (Hk : "value" ∈ metric_keys) by (do 2 right; left).
  assert (Hnone : delete "value" run_payload !! "value" = None) by (vm_compute; reflexivity).
  assert (Hall : ∀ k', k' ∈ metric_keys → k' ≠ "value" →
                       is_Some (delete "value" run_payload !! k')).
  { intros k' Hk' Hne. unfold metric_keys in Hk'.
    repeat (apply elem_of_cons in Hk' as [->|Hk']; [try done; vm_compute; by eexists|]).
    by apply elem_of_nil in Hk'. }
  assert (Hdate : "value" ≠ "date" →
                  ∃ s o, delete "value" run_payload !! "date" = Some (VStr s) ∧
                         parse_datetime (Library := sample_library) s = Ok o).
  { intros _. exists sample_date, (Some sample_time). split; vm_compute; reflexivity. }
  exact (create_without_a_field_raises (lib := sample_library) sample_store
           (delete "value" run_payload) "value" Howner Hk Hnone Hall Hdate).
Defined.

Lemma create_on_empty_store :
  ModelRunView.create (lib := sample_library) (be := accepting_backend) 7 empty_store
    (run_request (VInt 2)) =
  (Ok (respond (RunJson started_run None) HTTP_201_CREATED), add_run empty_store started_run).
Proof. vm_compute. reflexivity. Qed.

Lemma create_keeps_at_most_one_started_witness :
  at_most_one_started (add_run empty_store started_run).
Proof.
  assert (H0 : at_most_one_started empty_store) by (unfold at_most_one_started; cbn; lia).
  exact (create_keeps_at_most_one_started (lib := sample_library) (be := accepting_backend)
           7 empty_store (run_request (VInt 2)) _ _ create_on_empty_store H0).
Defined.

Lemma create_after_an_answered_create_conflicts_witness :
  ∃ run, run ∈ runs (mkStore [] [started_run] [] 2) ∧ ModelRun.state run = STARTED ∧
    ∀ now' st'' d', run ∈ runs st'' →
      ModelRunView.create (lib := sample_library) (be := accepting_backend) now' st'' d' =
        (Ok (respond (Message "Conflict" "There is already an active run" None)
               HTTP_409_CONFLICT), st'').
Proof.
  exact (create_after_an_answered_create_conflicts (lib := sample_library)
           (be := accepting_backend) 7 empty_store (run_request (VInt 2)) _ _
           create_on_empty_store).
Defined.

(** The scenario at length: a run is started on the empty store at time
    7; a request at time 8 is refused; a worker's metric is ingested; a
    request at time 9, of another body, is refused again, and the store
    holds the one run and the one metric. *)
Example create_twice_around_a_metric :
  let st1 := mkStore [] [started_run] [] 2 in
  let st2 := mkStore [] [started_run] [run_payload_metric] 2 in
  let conflict := respond (Message "Conflict" "There is already an active run" None)
                    HTTP_409_CONFLICT in
  ModelRunView.create (lib := sample_library) (be := accepting_backend) 7 empty_store
    (run_request (VInt 2)) = (Ok (respond (RunJson started_run None) HTTP_201_CREATED), st1) ∧
  ModelRunView.create (lib := sample_library) (be := accepting_backend) 8 st1
    (run_request (VInt 4)) = (Ok conflict, st1) ∧
  (KubeMetricsView.create (lib := sample_library) st1 run_payload).2 = st2 ∧
  ModelRunView.create (lib := sample_library) (be := accepting_backend) 9 st2
    (run_request (VInt 4)) = (Ok conflict, st2).
Proof. vm_compute. repeat split; reflexivity. Qed.

Lemma create_run_without_a_field_raises_witness :
  ModelRunView.create (lib := sample_library) (be := accepting_backend) 7 empty_store
    (delete "name" (run_request (VInt 2))) = (Raise (KeyError "name"), empty_store).
Proof.
  assert (Hno : ∀ r, r ∈ runs empty_store → ModelRun.state r ≠ STARTED)
    by (intros r Hr; inversion Hr).
  assert (Hk : "name" ∈ run_keys) by (right; left).
  assert (Hnone : delete "name" (run_request (VInt 2)) !! "name" = None)
    by (vm_compute; reflexivity).
  assert (Hall : ∀ k', k' ∈ run_keys → k' ≠ "name" →
                       is_Some (delete "name" (run_request (VInt 2)) !! k')).
  { intros k' Hk' Hne. unfold run_keys in Hk'.
    repeat (apply elem_of_cons in Hk' as [->|Hk']; [try done; vm_compute; by eexists|]).
    by apply elem_of_nil in Hk'. }
  assert (Hcpu : "name" ≠ "num_cpus" →
                 ∃ v x, delete "name" (run_request (VInt 2)) !! "num_cpus" = Some v ∧
                        py_float (lib := sample_library) v = Ok x).
  { intros _. exists (VInt 2), two_cores. split; vm_compute; reflexivity. }
  exact (create_run_without_a_field_raises (lib := sample_library) (be := accepting_backend)
           7 empty_store (delete "name" (run_request (VInt 2))) "name"
           Hno Hk Hnone Hall Hcpu).
Defined.

Lemma destroyed_run_is_gone_witness :
  let st' := mkStore [] [] [] 2 in
  let q := mkQuery None (Some "run") "json" in
  ModelRunView.destroy (lib := sample_library) st' "1" = (Raise DoesNotExist, st') ∧
  ModelRunView.retrieve (lib := sample_library) (be := accepting_backend) st' "1" =
    Raise DoesNotExist ∧
  KubeMetricsView.retrieve (lib := sample_library) st' q "1" = Raise DoesNotExist.
Proof.
  exact (destroyed_run_is_gone (lib := sample_library) (be := accepting_backend)
           sample_store "1" _ (mkStore [] [] [] 2) (mkQuery None (Some "run") "json") None
           destroy_sample_run eq_refl eq_refl).
Defined.

Lemma run_views_on_a_missing_run_raise_witness :
  ModelRunView.retrieve (lib := sample_library) (be := accepting_backend) sample_store "7" =
    Raise DoesNotExist ∧
  ModelRunView.destroy (lib := sample_library) sample_store "7" =
    (Raise DoesNotExist, sample_store).
Proof.
  assert (Hi : int_of_str (Library := sample_library) "7" = Some 7) by reflexivity.
  assert (Hno : ∀ r, r ∈ runs sample_store → ModelRun.id r ≠ 7).
  { intros r Hr. unfold sample_store in Hr. cbn [runs] in Hr.
    apply list_elem_of_singleton in Hr as ->. done. }
  exact (run_views_on_a_missing_run_raise (lib := sample_library) (be := accepting_backend)
           sample_store "7" 7 Hi Hno).
Defined.

(** * The workers' side *)

Example format_6f_half : format_6f half = "0.500000".
Proof. vm_compute. reflexivity. Qed.

Example format_6f_two_thirds :
  format_6f (SFdiv prec emax (float_of_Z 2) (float_of_Z 3)) = "0.666667".
Proof. vm_compute. reflexivity. Qed.

Example format_6f_tie :
  format_6f (SFdiv prec emax (float_of_Z 25) (float_of_Z 10000000)) = "0.000003" ∧
  format_6f (SFdiv prec emax (float_of_Z 5) (float_of_Z 10000000)) = "0.000000" ∧
  format_6f (SFdiv prec emax (float_of_Z 1234567890125) (float_of_Z 10000000)) = "123456.789012".
Proof. vm_compute. repeat split; reflexivity. Qed.

(** ** [_warp] *)

Lemma characters_append (a b : string) :
  characters (a +:+ b) = (characters a + characters b)%nat.
Proof.
  induction a as [|c a IH]; [done|].
  change (((if starts_character c then 1 else 0) + characters (a +:+ b))%nat =
          ((if starts_character c then 1 else 0) + characters a + characters b)%nat).
  rewrite IH. lia.
Qed.

Lemma characters_str_repeat s n :
  characters (str_repeat s n) = (n * characters s)%nat.
Proof.
  induction n as [|n IH]; [done|].
  change (characters (s +:+ str_repeat s n) = (characters s + n * characters s)%nat).
  by rewrite characters_append, IH.
Qed.

Lemma len_append (a b : string) : len (a +:+ b) = len a + len b.
Proof. unfold len. rewrite characters_append. lia. Qed.

Lemma len_str_mul s n : 0 ≤ n → len (str_mul s n) = n * len s.
Proof. intros Hn. unfold len, str_mul. rewrite characters_str_repeat. lia. Qed.

(** [len] counts code points, not bytes. *)
Example len_samples :
  len "abc" = 3 ∧ len "é" = 1 ∧ String.length "é" = 2%nat ∧ len "═" = 1 ∧ len "日本語" = 3.
Proof. repeat split; reflexivity. Qed.

(** A banner of a one-character symbol fills the width, up to one column:
    when at least four columns are left beside the text, the banner has
    [length] characters, or one less when the room to share is odd, and it
    never has more; when fewer are left the text is returned as it is.
    Lengths are in characters, as [len] counts them, so the text and the
    symbol may be any, ASCII or not. *)
Theorem _warp_fills_the_width string symbol length :
  len symbol = 1 →
  (4 ≤ length - len string →
     len (_warp string symbol length) = length - (length - len string) `mod` 2) ∧
  (length - len string < 4 → _warp string symbol length = string).
Proof.
  intros Hsym. unfold _warp. split.
  - intros Hroom.
    assert (Hpos : 0 < (length - len string - 2) / 2) by (apply Z.div_str_pos; lia).
    apply Z.gtb_lt in Hpos as Hgt. rewrite Hgt.
    rewrite !len_append, len_str_mul, Hsym by lia.
    change (len " ") with 1.
    pose proof (Z.div_mod (length - len string - 2) 2 ltac:(lia)) as H1.
    assert (H2 : (length - len string - 2) `mod` 2 = (length - len string) `mod` 2).
    { replace (length - len string - 2) with (length - len string + (-1) * 2) by lia.
      apply Z.mod_add. lia. }
    lia.
  - intros Hroom.
    assert (Hle : (length - len string - 2) / 2 ≤ 0).
    { apply Z.lt_succ_r. apply Z.div_lt_upper_bound; lia. }
    destruct (_ >? 0) eqn:Hgt; [|done]. apply Z.gtb_lt in Hgt. lia.
Qed.

Lemma _warp_fills_the_width_witness :
  len "═" = 1 ∧
  len (_warp "é" "═" 9) = 9 - (9 - len "é") `mod` 2 ∧
  _warp "日本語" "═" 6 = "日本語".
Proof.
  assert (Hsym : len "═" = 1) by reflexivity.
  assert (Hroom : 4 ≤ 9 - len "é") by (vm_compute; discriminate).
  assert (Hnone : 6 - len "日本語" < 4) by reflexivity.
  exact (conj Hsym (conj
    (proj1 (_warp_fills_the_width "é" "═" 9 Hsym) Hroom)
    (proj2 (_warp_fills_the_width "日本語" "═" 6 Hsym) Hnone))).
Defined.

Example _warp_abc : _warp "abc" "*" 9 = "** abc **" ∧ _warp "abc" "*" 8 = "* abc *".
Proof. split; reflexivity. Qed.

(** A text of one character that takes two bytes: three symbols on each
    side, and nine characters in all. *)
Example _warp_e_acute :
  _warp "é" "*" 9 = "*** é ***" ∧ len (_warp "é" "*" 9) = 9 ∧
  _warp "é" "═" 9 = "═══ é ═══" ∧ len (_warp "é" "═" 9) = 9 ∧
  _warp "é" "*" 4 = "é".
Proof. repeat split; reflexivity. Qed.

(** ** [post_metrics] *)

Section Posting.
Context {lib : Library}.

Lemma metric_data_fields options name value now t :
  parse_datetime now = Ok (Some t) →
  KubeMetricsView.metric_fields (metric_data options name value now)
    name t (format_6f value) "" false.
Proof.
  intros Ht. exists (VStr name), now, (VStr (format_6f value)), (VStr ""), (VStr "False").
  unfold metric_data.
  repeat split; try done;
    by repeat (rewrite lookup_insert_ne by done); rewrite lookup_insert_eq.
Qed.

(** What a worker posts is ingested: the dict [post_metrics] builds
    names a run and no pod and carries every field the view reads, so for
    an existing run and a date the view can parse it is answered 201, and
    the store after the request is the store before it with one row more
    at the end of the metrics: the sample, owned by the run, its value
    with six decimals, its metadata empty, not cumulative. *)
Theorem posted_metric_is_ingested st options name value now run t :
  ModelRun_get st (run_id options) = Ok run →
  parse_datetime now = Ok (Some t) →
  let metric :=
    KubeMetric.mk name t (format_6f value) "" false None (Some (ModelRun.id run)) in
  KubeMetricsView.create st (metric_data options name value now) =
    (Ok (respond (MetricJson (KubeMetricsSerializer_data metric)) HTTP_201_CREATED),
     mkStore (pods st) (runs st) (metrics st ++ [metric]) (next_run_id st)).
Proof.
  intros Hrun Ht. apply (create_for_a_run st _ (run_id options)).
  - unfold metric_data. by repeat (rewrite lookup_insert_ne by done).
  - unfold metric_data. by rewrite lookup_insert_eq.
  - done.
  - by apply metric_data_fields.
Qed.
End Posting.

(** Outside a cluster nothing is posted, ever: the first call finds the
    cluster configuration missing, posts nothing and records the sample;
    from then on no call posts or consults the cluster again, whatever it
    would find, and every sample is still recorded. *)
Theorem out_of_cluster_nothing_is_posted options name value now :
  rank options = 0 → dont_post_to_dashboard options = false →
  post_metrics OutOfCluster AsyncMetricsPost.new options name value now =
    (poster_off, with_record options (metric_data options name value now), [], None) ∧
  ∀ env options' name' value' now',
    post_metrics env poster_off options' name' value' now' =
      (poster_off, with_record options' (metric_data options' name' value' now'), [], None).
Proof.
  intros Hr Hd. split.
  - destruct options as [rid rk dp ep recs]. cbn in Hr, Hd. subst rk dp. reflexivity.
  - intros env options' name' value' now'. unfold post_metrics, _post_metrics.
    cbn [AsyncMetricsPost._incluster poster_off]. by rewrite andb_false_r.
Qed.

(** The first post fixes the endpoint: when the first call finds one
    master pod, the sample goes to that pod's metrics endpoint, and so does
    every later sample of rank 0, whatever the cluster looks like by then. *)
Theorem first_post_fixes_the_endpoint ip options name value now :
  rank options = 0 → dont_post_to_dashboard options = false →
  post_metrics (MasterPods [ip]) AsyncMetricsPost.new options name value now =
    (poster_on ip, with_record options (metric_data options name value now),
     [("http://" +:+ ip +:+ "/api/metrics/", metric_data options name value now)], None) ∧
  ∀ env options' name' value' now',
    rank options' = 0 → dont_post_to_dashboard options' = false →
    post_metrics env (poster_on ip) options' name' value' now' =
      (poster_on ip, with_record options' (metric_data options' name' value' now'),
       [("http://" +:+ ip +:+ "/api/metrics/", metric_data options' name' value' now')], None).
Proof.
  intros Hr Hd. split.
  - destruct options as [rid rk dp ep recs]. cbn in Hr, Hd. subst rk dp. reflexivity.
  - intros env options' name' value' now' Hr' Hd'.
    destruct options' as [rid rk dp ep recs]. cbn in Hr', Hd'. subst rk dp. reflexivity.
Qed.

(** When the master cannot be found, because the listing fails or does
    not find exactly one pod, the first call of rank 0 raises: nothing is
    sent, the sample is not recorded, and the poster is left as new. *)
Theorem post_metrics_without_master_raises env options name value now :
  rank options = 0 → dont_post_to_dashboard options = false →
  env = ListingFails ∨ (∃ ips, env = MasterPods ips ∧ length ips ≠ 1%nat) →
  ∃ e,
    post_metrics env AsyncMetricsPost.new options name value now =
      (AsyncMetricsPost.new, options, [], Some e).
Proof.
  intros Hr Hd Henv. destruct options as [rid rk dp ep recs]. cbn in Hr, Hd. subst rk dp.
  destruct Henv as [->|(ips & -> & Hn)]; [by eexists|].
  destruct ips as [|ip [|ip' ips]]; [by eexists|done|by eexists].
Qed.

(** Whatever the poster, the cluster and the options: a call sends at
    most one request, and only from rank 0 with posting enabled; the
    request carries the sample's dict to the poster's endpoint; and the
    sample is recorded exactly when no exception leaves the call. *)
Theorem post_metrics_sends_at_most_once env poster options name value now
    poster' options' sent err :
  post_metrics env poster options name value now = (poster', options', sent, err) →
  (sent = [] ∨
   (rank options = 0 ∧ dont_post_to_dashboard options = false ∧
    ∃ url, AsyncMetricsPost.endpoint poster' = Some url ∧
           sent = [(url, metric_data options name value now)])) ∧
  match err with
  | None => options' = with_record options (metric_data options name value now)
  | Some _ => options' = options
  end.
Proof.
  destruct options as [rid rk dp ep recs]. unfold post_metrics, _post_metrics.
  cbn [rank dont_post_to_dashboard].
  destruct (rk =? 0) eqn:Hr; cbn [andb];
    [|intros [= <- <- <- <-]; split; [by left|reflexivity]].
  destruct dp; cbn [andb negb];
    [intros [= <- <- <- <-]; split; [by left|reflexivity]|].
  destruct (AsyncMetricsPost._incluster poster) eqn:Hin;
    [|intros [= <- <- <- <-]; split; [by left|reflexivity]].
  apply Z.eqb_eq in Hr.
  unfold AsyncMetricsPost.post, AsyncMetricsPost.emit.
  destruct (AsyncMetricsPost._initialized poster); cbn [negb].
  - destruct (AsyncMetricsPost.endpoint poster) as [url|] eqn:Hurl;
      intros [= <- <- <- <-]; (split; [|reflexivity]); [right|by left].
    repeat split; try done. by exists url.
  - destruct env as [| |ips]; cbn.
    + intros [= <- <- <- <-]. split; [by left|reflexivity].
    + intros [= <- <- <- <-]. split; [by left|reflexivity].
    + destruct ips as [|ip [|ip' ips]]; cbn; try rewrite Hin; cbn.
      * intros [= <- <- <- <-]. split; [by left|reflexivity].
      * intros [= <- <- <- <-]. split; [right|reflexivity].
        repeat split; try done. by eexists.
      * intros [= <- <- <- <-]. split; [by left|reflexivity].
Qed.

Lemma posted_metric_is_ingested_witness :
  let metric := KubeMetric.mk "loss" sample_time "0.500000" "" false None (Some 1) in
  KubeMetricsView.create (lib := sample_library) sample_store
    (metric_data sample_options "loss" half worker_date) =
    (Ok (respond (MetricJson (KubeMetricsSerializer_data metric)) HTTP_201_CREATED),
     mkStore [sample_pod] [sample_run] [pod_sample; run_sample; metric] 2).
Proof.
  assert (Hrun : ModelRun_get (lib := sample_library) sample_store (run_id sample_options) =
                 Ok sample_run) by (vm_compute; reflexivity).
  assert (Ht : parse_datetime (Library := sample_library) worker_date = Ok (Some sample_time))
    by reflexivity.
  exact (posted_metric_is_ingested (lib := sample_library) sample_store sample_options
           "loss" half worker_date sample_run sample_time Hrun Ht).
Defined.

(** The same on a run of the worker: at rank 0, in a cluster with the
    master at 10.0.0.1, [post_metrics] sends one request, and the view
    stores what it carries.  The date is written as [str] writes a
    [datetime], with a space and without zone. *)
Example posted_by_a_worker_and_ingested :
  ∃ poster options payload,
    post_metrics (MasterPods ["10.0.0.1"]) AsyncMetricsPost.new sample_options "loss" half
      worker_date =
      (poster, options, [("http://10.0.0.1/api/metrics/", payload)], None) ∧
    payload !! "date" = Some (VStr "2018-08-14 09:21:44.331823") ∧
    KubeMetricsView.create (lib := sample_library) sample_store payload =
      (Ok (respond (MetricJson (MetricData.mk "loss" sample_time "0.500000" "" false))
             HTTP_201_CREATED),
       mkStore [sample_pod] [sample_run]
         [pod_sample; run_sample;
          KubeMetric.mk "loss" sample_time "0.500000" "" false None (Some 1)] 2).
Proof. eexists _, _, _. split; [reflexivity|]. split; vm_compute; reflexivity. Qed.

Lemma out_of_cluster_nothing_is_posted_witness :
  post_metrics OutOfCluster AsyncMetricsPost.new sample_options "loss" half sample_date =
    (poster_off, with_record sample_options (metric_data sample_options "loss" half sample_date),
     [], None) ∧
  ∀ env options' name' value' now',
    post_metrics env poster_off options' name' value' now' =
      (poster_off, with_record options' (metric_data options' name' value' now'), [], None).
Proof.
  exact (out_of_cluster_nothing_is_posted sample_options "loss" half sample_date
           eq_refl eq_refl).
Defined.

Lemma first_post_fixes_the_endpoint_witness :
  post_metrics (MasterPods ["10.0.0.1"]) AsyncMetricsPost.new sample_options "loss" half
      sample_date =
    (poster_on "10.0.0.1",
     with_record sample_options (metric_data sample_options "loss" half sample_date),
     [("http://" +:+ "10.0.0.1" +:+ "/api/metrics/",
       metric_data sample_options "loss" half sample_date)], None) ∧
  ∀ env options' name' value' now',
    rank options' = 0 → dont_post_to_dashboard options' = false →
    post_metrics env (poster_on "10.0.0.1") options' name' value' now' =
      (poster_on "10.0.0.1", with_record options' (metric_data options' name' value' now'),
       [("http://" +:+ "10.0.0.1" +:+ "/api/metrics/",
         metric_data options' name' value' now')], None).
Proof.
  exact (first_post_fixes_the_endpoint "10.0.0.1" sample_options "loss" half sample_date
           eq_refl eq_refl).
Defined.

Lemma post_metrics_without_master_raises_witness :
  ∃ e,
    post_metrics (MasterPods []) AsyncMetricsPost.new sample_options "loss" half sample_date =
      (AsyncMetricsPost.new, sample_options, [], Some e).
Proof.
  assert (Henv : MasterPods [] = ListingFails ∨
                 ∃ ips, MasterPods [] = MasterPods ips ∧ length ips ≠ 1%nat).
  { right. exists []. split; [reflexivity|]. cbn. lia. }
  exact (post_metrics_without_master_raises (MasterPods []) sample_options "loss" half
           sample_date eq_refl eq_refl Henv).
Defined.

Lemma post_metrics_sends_at_most_once_witness :
  let data := metric_data sample_options "loss" half sample_date in
  let sent := [("http://" +:+ "10.0.0.1" +:+ "/api/metrics/", data)] in
  (sent = [] ∨
   (rank sample_options = 0 ∧ dont_post_to_dashboard sample_options = false ∧
    ∃ url, AsyncMetricsPost.endpoint (poster_on "10.0.0.1") = Some url ∧
           sent = [(url, data)])) ∧
  with_record sample_options data = with_record sample_options data.
Proof.
  assert (H : post_metrics (MasterPods ["10.0.0.1"]) AsyncMetricsPost.new sample_options
                "loss" half sample_date =
              (poster_on "10.0.0.1",
               with_record sample_options (metric_data sample_options "loss" half sample_date),
               [("http://" +:+ "10.0.0.1" +:+ "/api/metrics/",
                 metric_data sample_options "loss" half sample_date)], None))
    by reflexivity.
  exact (post_metrics_sends_at_most_once (MasterPods ["10.0.0.1"]) AsyncMetricsPost.new
           sample_options "loss" half sample_date _ _ _ _ H).
Defined.

(** * The run page *)

Lemma metric_names_spec metrics n :
  n ∈ MainViews.metric_names metrics ↔ ∃ m, m ∈ metrics ∧ KubeMetric.name m = n.
Proof.
  unfold MainViews.metric_names.
  set (L := sorted_by KubeMetric.name str_lt metrics).
  assert (HL : StronglySorted (key_le KubeMetric.name str_lt) L)
    by (apply sorted_by_sorted; [apply str_lt_asym|apply str_lt_cotrans]).
  destruct (groupby_sorted KubeMetric.name L HL) as [_ Hgrp].
  rewrite list_elem_of_fmap. split.
  - intros ([k g] & -> & [Hne Hg]%Hgrp). cbn.
    destruct g as [|m g]; [done|].
    assert (Hm : In m (List.filter (has_key KubeMetric.name k) L)) by (rewrite <- Hg; by left).
    unfold L in Hm. rewrite filter_sorted_by_name in Hm.
    apply filter_In in Hm as [Hm Hk%String.eqb_eq]. exists m. by rewrite list_elem_of_In.
  - intros (m & Hm & <-).
    exists (KubeMetric.name m, List.filter (has_key KubeMetric.name (KubeMetric.name m)) L).
    split; [done|]. apply Hgrp. split; [|done].
    unfold L. rewrite filter_sorted_by_name.
    assert (Hin : In m (List.filter (has_key KubeMetric.name (KubeMetric.name m)) metrics)).
    { apply filter_In. split; [by apply list_elem_of_In|]. apply String.eqb_refl. }
    intros Hnil. by rewrite Hnil in Hin.
Qed.

(** The run page is not read-only: every time it is rendered for an
    existing run whose job the backend knows, two metrics named "test" are
    stored for the run, valued "0.0" now and "1.0" a minute later, so that
    "test" is among the names shown; pods and runs are left as they were.
    When the run or the job is not found nothing is stored. *)
Theorem run_page_stores_two_test_metrics {lib : Library} {be : Backend} now now2 st run_id :
  (∀ run meta,
     ModelRun_get st (VStr run_id) = Ok run →
     Job_fetch (ModelRun.job_id run) = Ok meta →
     ∃ names st',
       MainViews.run now now2 st run_id = (Ok (run, meta, names), st') ∧
       metrics st' = metrics st ++
         [KubeMetric.mk "test" now "0.0" "" false None (Some (ModelRun.id run));
          KubeMetric.mk "test" (now2 + 60000000) "1.0" "" false None (Some (ModelRun.id run))] ∧
       pods st' = pods st ∧ runs st' = runs st ∧
       "test" ∈ names) ∧
  (∀ e st', MainViews.run now now2 st run_id = (Raise e, st') → st' = st).
Proof.
  split.
  - intros run meta Hrun Hjob. unfold MainViews.run. rewrite Hrun, Hjob.
    eexists _, _. split; [done|]. cbn [metrics pods runs add_metric].
    rewrite <- app_assoc. repeat split; try done.
    apply metric_names_spec.
    exists (KubeMetric.mk "test" now "0.0" "" false None (Some (ModelRun.id run))).
    split; [|done]. unfold run_metrics. cbn [metrics add_metric].
    apply list_elem_of_In, filter_In. split.
    + apply in_or_app. left. apply in_or_app. right. by left.
    + by apply bool_decide_eq_true_2.
  - intros e st'. unfold MainViews.run.
    destruct (ModelRun_get st (VStr run_id)) as [run|e']; [|by intros [= <- <-]].
    destruct (Job_fetch (ModelRun.job_id run)) as [meta|e']; [done|by intros [= <- <-]].
Qed.

Lemma run_page_stores_two_test_metrics_witness :
  ∃ names st',
    MainViews.run (lib := sample_library) (be := accepting_backend) 7 8 sample_store "1" =
      (Ok (sample_run, ∅, names), st') ∧
    metrics st' = metrics sample_store ++
      [KubeMetric.mk "test" 7 "0.0" "" false None (Some (ModelRun.id sample_run));
       KubeMetric.mk "test" (8 + 60000000) "1.0" "" false None
         (Some (ModelRun.id sample_run))] ∧
    pods st' = pods sample_store ∧ runs st' = runs sample_store ∧
    "test" ∈ names.
Proof.
  assert (Hrun : ModelRun_get (lib := sample_library) sample_store (VStr "1") = Ok sample_run)
    by (vm_compute; reflexivity).
  exact (proj1 (run_page_stores_two_test_metrics (lib := sample_library)
                  (be := accepting_backend) 7 8 sample_store "1")
           sample_run ∅ Hrun eq_refl).
Defined.
